(** * zenodo_uploader: a model of the upload workflow

    The script [zenodo_uploader.py] is a sequence of HTTP calls against the
    Zenodo REST API.  This development embeds it as follows.

    - Python values that flow through the script (decoded JSON replies, the
      YAML metadata document) are values of [json].
    - Python exceptions are values of [exn]; a computation that may raise
      returns [result].
    - The remote service, the file system and the process environment are
      the fields of a [World]; the remote service answers a request as a
      function of the requests made before it.
    - Code that talks to the service runs in the monad [M]: it threads the
      list of calls made so far and stops at the first exception.
    - Progress messages written to standard output are not modelled, apart
      from the name look-ups their formatting performs.
    - Numbers are integers, strings are sequences of bytes. *)

From Stdlib Require Import String Ascii List ZArith Lia Bool.
From Stdlib Require Import DecimalString.
Import ListNotations.
Open Scope string_scope.

Local Set Warnings "-register-all".

(** ** Values and exceptions *)

Inductive json : Type :=
| JNull
| JBool (b : bool)
| JNum (n : Z)
| JStr (s : string)
| JArr (l : list json)
| JObj (items : list (string * json)).

Inductive exn : Type :=
| HTTPError (status : Z)
| ConnectionError
| JSONDecodeError
| KeyError (key : string)
| TypeError
| AttributeError (attr : string)
| NameError (name : string)
| FileNotFoundError (path : string)
| OSError (path : string)
| SystemExit (msg : string).

Inductive result (A : Type) : Type :=
| Ok (a : A)
| Raise (e : exn).
Arguments Ok {A} a.
Arguments Raise {A} e.

Definition rbind {A B} (r : result A) (k : A -> result B) : result B :=
  match r with
  | Ok a => k a
  | Raise e => Raise e
  end.

Fixpoint rmap {A B} (f : A -> result B) (l : list A) : result (list B) :=
  match l with
  | [] => Ok []
  | x :: xs =>
      rbind (f x) (fun y => rbind (rmap f xs) (fun ys => Ok (y :: ys)))
  end.

(** ** Python string operations used by the script *)

Module PyStr.

(** [s.startswith(p)] *)
Fixpoint startswith (p s : string) : bool :=
  match p, s with
  | EmptyString, _ => true
  | String a p', String b s' => Ascii.eqb a b && startswith p' s'
  | String _ _, EmptyString => false
  end.

(** The scan of [str.replace] for a non-empty [old]: [skip] counts the
    characters of a match that are still to be dropped. *)
Fixpoint replace_scan (old new : string) (skip : nat) (s : string) : string :=
  match s with
  | EmptyString => EmptyString
  | String c s' =>
      match skip with
      | S k => replace_scan old new k s'
      | O =>
          if startswith old s
          then new ++ replace_scan old new (String.length old - 1) s'
          else String c (replace_scan old new 0 s')
      end
  end.

Fixpoint intersperse_after (new s : string) : string :=
  match s with
  | EmptyString => EmptyString
  | String c s' => String c (new ++ intersperse_after new s')
  end.

(** [s.replace(old, new)]: every non-overlapping occurrence, left to right.
    An empty [old] matches before every character and at the end. *)
Definition replace (old new s : string) : string :=
  match old with
  | EmptyString => new ++ intersperse_after new s
  | String _ _ => replace_scan old new 0 s
  end.

(** [s.split(sep)] for a one-character separator: never empty. *)
Fixpoint split (sep : ascii) (s : string) : list string :=
  match s with
  | EmptyString => [EmptyString]
  | String c s' =>
      if Ascii.eqb c sep then EmptyString :: split sep s'
      else match split sep s' with
           | [] => [String c EmptyString]
           | w :: ws => String c w :: ws
           end
  end.

(** [sep.join(l)] *)
Fixpoint join (sep : string) (l : list string) : string :=
  match l with
  | [] => EmptyString
  | [x] => x
  | x :: xs => x ++ sep ++ join sep xs
  end.

(** [str(n)] for an integer. *)
Definition of_int (n : Z) : string := NilZero.string_of_int (Z.to_int n).

(** Truth value of a string: non-empty. *)
Definition nonempty (s : string) : bool :=
  match s with EmptyString => false | String _ _ => true end.

(** Is [c] among the characters of [s]? *)
Fixpoint mem (c : ascii) (s : string) : bool :=
  match s with
  | EmptyString => false
  | String d s' => Ascii.eqb c d || mem c s'
  end.

End PyStr.

(** ** Operations on Python values *)

Module Py.

Fixpoint assoc (k : string) (items : list (string * json)) : option json :=
  match items with
  | [] => None
  | (k', v) :: rest => if String.eqb k k' then Some v else assoc k rest
  end.

(** [bool(j)] *)
Definition truthy (j : json) : bool :=
  match j with
  | JNull => false
  | JBool b => b
  | JNum n => negb (n =? 0)%Z
  | JStr s => PyStr.nonempty s
  | JArr l => match l with [] => false | _ :: _ => true end
  | JObj items => match items with [] => false | _ :: _ => true end
  end.

(** [j[k]] for a string key [k]: only a dict can be subscripted by it. *)
Definition getitem (j : json) (k : string) : result json :=
  match j with
  | JObj items =>
      match assoc k items with
      | Some v => Ok v
      | None => Raise (KeyError k)
      end
  | _ => Raise TypeError
  end.

Fixpoint chars (s : string) : list json :=
  match s with
  | EmptyString => []
  | String c s' => JStr (String c EmptyString) :: chars s'
  end.

(** The elements [for x in j] visits. *)
Definition iter (j : json) : result (list json) :=
  match j with
  | JArr l => Ok l
  | JObj items => Ok (map (fun kv => JStr (fst kv)) items)
  | JStr s => Ok (chars s)
  | _ => Raise TypeError
  end.

(** [j.replace(old, new)]: a method of strings only. *)
Definition replace (j : json) (old new : string) : result json :=
  match j with
  | JStr s => Ok (JStr (PyStr.replace old new s))
  | _ => Raise (AttributeError "replace")
  end.

(** [j.split(sep)[-1]] *)
Definition split_last (j : json) (sep : ascii) : result string :=
  match j with
  | JStr s => Ok (last (PyStr.split sep s) EmptyString)
  | _ => Raise (AttributeError "split")
  end.

(** What an f-string writes for [j].  The text of a list or a dict comes
    from the interpreter's [repr], left to the caller as [repr]. *)
Definition format (repr : json -> string) (j : json) : string :=
  match j with
  | JNull => "None"
  | JBool true => "True"
  | JBool false => "False"
  | JNum n => PyStr.of_int n
  | JStr s => s
  | JArr _ | JObj _ => repr j
  end.

(** The argument [creators] of the search: a list, or the generator
    expression the script passes, whose elements are computed (and may
    raise) only when it is consumed. *)
Inductive iterable : Type :=
| PyList (l : list json)
| PyGen (g : list (result json)).

Definition iterable_truthy (it : iterable) : bool :=
  match it with
  | PyList [] => false
  | PyList (_ :: _) => true
  | PyGen _ => true
  end.

Definition consume (it : iterable) : result (list json) :=
  match it with
  | PyList l => Ok l
  | PyGen g => rmap (fun r => r) g
  end.

Definition as_str (j : json) : result string :=
  match j with
  | JStr s => Ok s
  | _ => Raise TypeError
  end.

(** [sep.join(it)]: the iterable is consumed first, then every item has to
    be a string. *)
Definition join (sep : string) (it : iterable) : result string :=
  rbind (consume it) (fun items =>
  rbind (rmap as_str items) (fun strs =>
  Ok (PyStr.join sep strs))).

End Py.

(** ** [urllib.parse.urlencode]

    Strings are sequences of bytes here: text that cannot be encoded (a
    lone surrogate, on which [urlencode] raises) has no counterpart. *)

Module Url.

Definition is_unreserved (c : ascii) : bool :=
  let n := nat_of_ascii c in
  (Nat.leb 48 n && Nat.leb n 57) || (Nat.leb 65 n && Nat.leb n 90)
  || (Nat.leb 97 n && Nat.leb n 122) || PyStr.mem c "_.-~".

Definition hex_digit (n : nat) : ascii :=
  if Nat.ltb n 10 then ascii_of_nat (48 + n) else ascii_of_nat (55 + n).

Definition quote_char (c : ascii) : string :=
  if is_unreserved c then String c EmptyString
  else if Ascii.eqb c " " then "+"
  else let n := nat_of_ascii c in
       String "%" (String (hex_digit (Nat.div n 16))
                          (String (hex_digit (Nat.modulo n 16)) EmptyString)).

Fixpoint quote_plus (s : string) : string :=
  match s with
  | EmptyString => EmptyString
  | String c s' => quote_char c ++ quote_plus s'
  end.

Definition urlencode (params : list (string * string)) : string :=
  PyStr.join "&" (map (fun kv => quote_plus (fst kv) ++ "=" ++ quote_plus (snd kv)) params).

End Url.

(** ** The remote service and the rest of the world *)

Inductive method : Type := GET | POST | PUT.

(** What a request carries as its body: nothing, the [json=] argument, the
    text [json.dumps] makes of a document, or the bytes of an open file. *)
Inductive payload : Type :=
| NoBody
| JsonBody (j : json)
| DumpsBody (j : json)
| FileBody (path : string).

Record request : Type := Request {
  meth : method;
  url : string;
  params : list (string * string);
  body : payload;
  headers : list (string * string) }.

(** A response has a status and a body that may or may not decode as JSON. *)
Record response : Type := Response {
  status_code : Z;
  content : option json }.

(** [NoReply]: the transport failed and [requests] raised. *)
Inductive reply : Type :=
| NoReply
| Reply (r : response).

(** The seven remote operations of the script. *)
Inductive op : Type :=
| Search | CreateDeposition | NewVersion | FetchDeposition
| UploadFile | AttachMetadata | Publish.

Definition call : Type := op * request.

Record World : Type := {
  (** [os.getenv] *)
  getenv : string -> option string;
  (** [os.path.abspath] *)
  abspath : string -> string;
  (** [os.path.isfile] *)
  isfile : string -> bool;
  (** does [open(path)] succeed? *)
  can_open : string -> bool;
  (** [yaml.safe_load] of the file at a path; [None] when it raises *)
  yaml_safe_load : string -> option json;
  (** [repr] of a list or a dict *)
  repr : json -> string;
  (** the answer to a request, given the requests sent before it *)
  service : list request -> request -> reply }.

(** ** The monad of the script: the calls made so far, and exceptions *)

Definition M (A : Type) : Type := list call -> result A * list call.

Definition ret {A} (a : A) : M A := fun tr => (Ok a, tr).

Definition raise {A} (e : exn) : M A := fun tr => (Raise e, tr).

Definition bind {A B} (m : M A) (k : A -> M B) : M B :=
  fun tr =>
    match m tr with
    | (Ok a, tr') => k a tr'
    | (Raise e, tr') => (Raise e, tr')
    end.

Definition lift {A} (r : result A) : M A := fun tr => (r, tr).

Declare Scope script_scope.
Delimit Scope script_scope with script.
Notation "x <- c ;; k" := (bind c (fun x => k))
  (at level 61, c at next level, right associativity) : script_scope.
Notation "' pat <- c ;; k" := (bind c (fun x => match x with pat => k end))
  (at level 61, pat pattern, c at next level, right associativity) : script_scope.
Notation "c ;;; k" := (bind c (fun _ => k))
  (at level 61, right associativity) : script_scope.

(** [r.raise_for_status()]: [requests] raises for a status from 400 to 599. *)
Definition raise_for_status (r : response) : result unit :=
  if ((400 <=? status_code r) && (status_code r <? 600))%Z
  then Raise (HTTPError (status_code r))
  else Ok tt.

(** [r.json()] *)
Definition response_json (r : response) : result json :=
  match content r with
  | Some j => Ok j
  | None => Raise JSONDecodeError
  end.

Definition basename (path : string) : string :=
  last (PyStr.split "/" path) EmptyString.

Definition dquote : string := String "034"%char EmptyString.

Definition default_server : string := "https://sandbox.zenodo.org/api/".

Definition access (token : string) : list (string * string) :=
  [("access_token", token)].

Definition json_header : list (string * string) :=
  [("Content-Type", "application/json")].

(** The triple every resolution returns. *)
Definition deposition_triple : Type := json * json * json.

Definition none_triple : deposition_triple := (JNull, JNull, JNull).

(** The names bound at module level while a function of the script runs. *)
Definition namespace : Type := list (string * json).

Record arguments : Type := {
  files_to_upload : list string;
  config_file : string;
  publish : bool }.

Open Scope script_scope.

Fixpoint for_each {A} (f : A -> M unit) (l : list A) : M unit :=
  match l with
  | [] => ret tt
  | x :: xs => f x ;;; for_each f xs
  end.

Section Script.

Variable W : World.

(** One HTTP exchange: the call is recorded, then the service answers.
    A URL that [requests] would refuse to send is not told apart: what
    is proved of a call holds for the calls that are sent. *)
Definition http (o : op) (rq : request) : M response :=
  fun tr =>
    match service W (map snd tr) rq with
    | NoReply => (Raise ConnectionError, (tr ++ [(o, rq)])%list)
    | Reply r => (Ok r, (tr ++ [(o, rq)])%list)
    end.

Definition fmt (j : json) : string := Py.format (repr W) j.

(** Lines 17-23 of [search_for_deposition]: the query string. *)
Definition search_query (title : json) (owner : option string)
    (creators : option Py.iterable) : result string :=
  let search := "metadata.title:" ++ dquote ++ fmt title ++ dquote in
  let search :=
    match owner with
    | Some o => if PyStr.nonempty o then search ++ " owners:" ++ o else search
    | None => search
    end in
  rbind
    match creators with
    | Some it =>
        if Py.iterable_truthy it then
          rbind (Py.join (dquote ++ " OR " ++ dquote) it) (fun joined =>
          let creators_query := dquote ++ joined ++ dquote in
          Ok (search ++ " metadata.creators.name:" ++ creators_query))
        else Ok search
    | None => Ok search
    end
    (fun search => Ok (PyStr.replace "/" " " search)).

Definition search_url (zenodo_server search : string) : string :=
  zenodo_server ++ "records?" ++ Url.urlencode [("q", search); ("sort", "bestmatch")].

(** The requests of the seven operations, as the functions below build them. *)
Definition search_request (zenodo_server search : string) : request :=
  Request GET (search_url zenodo_server search) [] NoBody [].

Definition newversion_request (deposition_id : json) (token zenodo_server : string)
    : request :=
  Request POST
    (zenodo_server ++ "deposit/depositions/" ++ fmt deposition_id ++ "/actions/newversion")
    (access token) NoBody [].

Definition fetch_request (new_deposition_id token zenodo_server : string) : request :=
  Request GET (zenodo_server ++ "deposit/depositions/" ++ new_deposition_id)
    (access token) NoBody [].

Definition create_request (token zenodo_server : string) : request :=
  Request POST (zenodo_server ++ "deposit/depositions") (access token)
    (JsonBody (JObj [])) json_header.

Definition upload_request (filename : string) (bucket_url : json)
    (filebase token : string) : request :=
  Request PUT (fmt bucket_url ++ "/" ++ filebase) (access token) (FileBody filename) [].

Definition metadata_request (deposition_id meta_data : json)
    (token zenodo_server : string) : request :=
  Request PUT (zenodo_server ++ "deposit/depositions/" ++ fmt deposition_id)
    (access token) (DumpsBody meta_data) json_header.

Definition publish_request (deposition_id : json) (token zenodo_server : string)
    : request :=
  Request POST (zenodo_server ++ "/" ++ fmt deposition_id ++ "/actions/publish")
    (access token) NoBody [].

(** The tuple built from a deposition document: its id, its bucket link and
    its html link with "deposit" replaced by "record". *)
Definition triple_of (deposition : json) : result deposition_triple :=
  rbind (Py.getitem deposition "id") (fun id =>
  rbind (Py.getitem deposition "links") (fun links =>
  rbind (Py.getitem links "bucket") (fun bucket =>
  rbind (Py.getitem deposition "links") (fun links' =>
  rbind (Py.getitem links' "html") (fun html =>
  rbind (Py.replace html "deposit" "record") (fun record =>
  Ok (id, bucket, record))))))).

Definition search_for_deposition (title : json) (owner : option string)
    (creators : option Py.iterable) (zenodo_server : string) : M deposition_triple :=
  search <- lift (search_query title owner creators) ;;
  r <- http Search (search_request zenodo_server search) ;;
  doc <- lift (response_json r) ;;
  hits <- lift (Py.getitem doc "hits") ;;
  hits <- lift (Py.getitem hits "hits") ;;
  records <- lift (Py.iter hits) ;;
  match records with
  | [] => ret none_triple
  | deposition :: _ => lift (triple_of deposition)
  end.

Definition create_new_version (deposition_id : json) (token zenodo_server : string)
    : M deposition_triple :=
  r <- http NewVersion (newversion_request deposition_id token zenodo_server) ;;
  lift (raise_for_status r) ;;;
  deposition <- lift (response_json r) ;;
  links <- lift (Py.getitem deposition "links") ;;
  new_deposition_url <- lift (Py.getitem links "latest_draft") ;;
  new_deposition_id <- lift (Py.split_last new_deposition_url "/") ;;
  r <- http FetchDeposition (fetch_request new_deposition_id token zenodo_server) ;;
  lift (raise_for_status r) ;;;
  deposition <- lift (response_json r) ;;
  lift (triple_of deposition).

Definition create_new_deposition (token zenodo_server : string) : M deposition_triple :=
  r <- http CreateDeposition (create_request token zenodo_server) ;;
  lift (raise_for_status r) ;;;
  deposition <- lift (response_json r) ;;
  lift (triple_of deposition).

Definition upload_to_zenodo (filename : string) (bucket_url file_url : json)
    (filebase token : string) : M unit :=
  if can_open W filename then
    r <- http UploadFile (upload_request filename bucket_url filebase token) ;;
    lift (raise_for_status r)
  else raise (OSError filename).

(** [globals] are the names bound at module level when the function runs:
    its progress message reads [filename], which is not one of its own. *)
Definition add_meta_data (globals : namespace) (deposition_id meta_data : json)
    (token zenodo_server : string) : M unit :=
  match Py.assoc "filename" globals with
  | None => raise (NameError "filename")
  | Some _ =>
      r <- http AttachMetadata
             (metadata_request deposition_id meta_data token zenodo_server) ;;
      lift (raise_for_status r)
  end.

Definition publish_file (deposition_id : json) (filebase token zenodo_server : string)
    : M unit :=
  r <- http Publish (publish_request deposition_id token zenodo_server) ;;
  lift (raise_for_status r).

(** The generator expression [(creator["name"] for creator in ...)]. *)
Definition creator_names (creators : list json) : Py.iterable :=
  Py.PyGen (map (fun creator => Py.getitem creator "name") creators).

(** The arguments of the call at lines 199-202: the title, and the
    sequence the generator expression ranges over ([iter] is applied to it
    when the expression is created). *)
Definition search_arguments (meta_data : json) : result (json * list json) :=
  rbind (Py.getitem meta_data "metadata") (fun metadata =>
  rbind (Py.getitem metadata "title") (fun title =>
  rbind (Py.getitem meta_data "metadata") (fun metadata' =>
  rbind (Py.getitem metadata' "creators") (fun creators =>
  rbind (Py.iter creators) (fun creators =>
  Ok (title, creators)))))).

(** The module-level names the loop body has bound before it calls out. *)
Definition loop_globals (token : string) (meta_data : json)
    (file filename filebase : string) : namespace :=
  [("token", JStr token); ("meta_data", meta_data); ("file", JStr file);
   ("filename", JStr filename); ("filebase", JStr filebase)].

(** The body of the loop over [args.files_to_upload]. *)
Definition upload_one (token : string) (meta_data : json) (do_publish : bool)
    (file : string) : M unit :=
  let filename := abspath W file in
  let filebase := basename filename in
  if negb (isfile W filename) then raise (FileNotFoundError filename)
  else
    ' (title, creators) <- lift (search_arguments meta_data) ;;
    ' (deposition_id, bucket_url, file_url) <-
        search_for_deposition title None (Some (creator_names creators)) default_server ;;
    if negb (Py.truthy deposition_id) then
      ' (deposition_id, bucket_url, file_url) <- create_new_deposition token default_server ;;
      upload_to_zenodo file bucket_url file_url filebase token ;;;
      add_meta_data (loop_globals token meta_data file filename filebase)
                    deposition_id meta_data token default_server ;;;
      if do_publish then publish_file deposition_id filebase token default_server
      else ret tt
    else
      ' (deposition_id, bucket_url, file_url) <-
          create_new_version deposition_id token default_server ;;
      upload_to_zenodo file bucket_url file_url filebase token ;;;
      if do_publish then publish_file deposition_id filebase token default_server
      else ret tt.

Definition newline : string := String "010"%char EmptyString.

Definition no_token_message : string :=
  "No access token provided!" ++ newline
  ++ "Please create an environment variable with the token." ++ newline
  ++ "Variable Name: `ZENODO_ACCESS_TOKEN`".

Definition main (args : arguments) : M unit :=
  match getenv W "ZENODO_ACCESS_TOKEN" with
  | None => raise (SystemExit no_token_message)
  | Some token =>
      if negb (PyStr.nonempty token) then raise (SystemExit no_token_message)
      else
        let config := abspath W (config_file args) in
        if negb (isfile W config) then raise (FileNotFoundError config)
        else if negb (can_open W config) then raise (OSError config)
        else
          let loaded :=
            match yaml_safe_load W config with
            | Some doc => Py.getitem doc "zenodo_metadata"
            | None => Raise TypeError
            end in
          match loaded with
          | Raise _ =>
              raise (SystemExit ("Please add metadata to the config file: " ++ config))
          | Ok meta_data =>
              for_each (upload_one token meta_data (publish args)) (files_to_upload args)
          end
  end.


End Script.

(** ** Reference definitions for the statements *)

(** [s] with every character equal to [c] dropped. *)
Fixpoint remove_char (c : ascii) (s : string) : string :=
  match s with
  | EmptyString => EmptyString
  | String d s' => if Ascii.eqb d c then remove_char c s' else String d (remove_char c s')
  end.

(** [s] with every character equal to [c] turned into [d]. *)
Fixpoint map_char (c d : ascii) (s : string) : string :=
  match s with
  | EmptyString => EmptyString
  | String e s' => String (if Ascii.eqb e c then d else e) (map_char c d s')
  end.

(** The query for title [T], owner [O] and creators [A], [B], before any
    treatment of the slashes. *)
Definition composed_query (T O A B : string) : string :=
  "metadata.title:" ++ dquote ++ T ++ dquote ++ " owners:" ++ O
  ++ " metadata.creators.name:" ++ dquote ++ A ++ dquote ++ " OR " ++ dquote ++ B ++ dquote.

(** [s.find(old)]: the index of the first occurrence. *)
Fixpoint find (old s : string) : option nat :=
  if PyStr.startswith old s then Some 0
  else match s with
       | EmptyString => None
       | String _ s' => option_map S (find old s')
       end.

Fixpoint take (n : nat) (s : string) : string :=
  match n, s with
  | S k, String c s' => String c (take k s')
  | _, _ => EmptyString
  end.

Fixpoint drop (n : nat) (s : string) : string :=
  match n, s with
  | S k, String _ s' => drop k s'
  | _, _ => s
  end.

(** [s] with its first occurrence of [old], if any, turned into [new]: a
    substitution made exactly once. *)
Definition replace_first (old new s : string) : string :=
  match find old s with
  | None => s
  | Some n => take n s ++ new ++ drop (n + String.length old) s
  end.

(** No occurrence of [old] in [s] after the first one. *)
Definition at_most_once (old s : string) : bool :=
  match find old s with
  | None => true
  | Some n =>
      match find old (drop (n + String.length old) s) with
      | None => true
      | Some _ => false
      end
  end.

(** [l] is an initial part of [full]. *)
Definition prefix_of {A} (l full : list A) : Prop := exists rest, (l ++ rest)%list = full.

Definition is_ok {A} (r : result A) : bool :=
  match r with Ok _ => true | Raise _ => false end.

(** [m] makes the calls [full], in this order, and nothing else; it may stop
    early, but not when it returns. *)
Definition runs {A} (m : M A) (full : list op) : Prop :=
  forall tr, exists calls,
    snd (m tr) = (tr ++ calls)%list
    /\ prefix_of (map fst calls) full
    /\ (is_ok (fst (m tr)) = true -> map fst calls = full).

(** The operations for one file when a deposition was found. *)
Definition version_path (do_publish : bool) : list op :=
  ([Search; NewVersion; FetchDeposition; UploadFile]
   ++ (if do_publish then [Publish] else []))%list.

(** The operations for one file when no deposition was found. *)
Definition deposition_path (do_publish : bool) : list op :=
  ([Search; CreateDeposition; UploadFile; AttachMetadata]
   ++ (if do_publish then [Publish] else []))%list.

(** ** Sample worlds, used to run the model on concrete inputs *)

(** A service that gives its answers in order, whatever is asked. *)
Definition scripted (answers : list reply) : list request -> request -> reply :=
  fun history _ => nth (List.length history) answers NoReply.

Definition sample_world (present : string -> bool) (answers : list reply) : World :=
  {| getenv := fun _ => Some "s3cret";
     abspath := fun path => "/data/" ++ path;
     isfile := present;
     can_open := present;
     yaml_safe_load := fun _ => None;
     repr := fun _ => EmptyString;
     service := scripted answers |}.

Definition everything (path : string) : bool := true.

Definition nothing (path : string) : bool := false.

Definition sample_meta_data : json :=
  JObj [("metadata",
         JObj [("title", JStr "Sample Dataset");
               ("creators", JArr [JObj [("name", JStr "A. Researcher")]])])].

Definition hits_doc (hits : list json) : json :=
  JObj [("hits", JObj [("hits", JArr hits)])].

Definition deposition_doc (id : json) (bucket html draft : string) : json :=
  JObj [("id", id);
        ("links", JObj [("bucket", JStr bucket); ("html", JStr html);
                        ("latest_draft", JStr draft)])].

Definition answer (status : Z) (doc : json) : reply :=
  Reply (Response status (Some doc)).

Definition sample_hit : json :=
  deposition_doc (JNum 42) "https://sandbox.zenodo.org/api/files/b42"
    "https://sandbox.zenodo.org/deposit/42"
    "https://sandbox.zenodo.org/api/deposit/depositions/42".

Definition sample_draft : json :=
  deposition_doc (JNum 43) "https://sandbox.zenodo.org/api/files/b43"
    "https://sandbox.zenodo.org/deposit/43"
    "https://sandbox.zenodo.org/api/deposit/depositions/43".

Definition sample_creators : list json := [JObj [("name", JStr "A. Researcher")]].

(** The query the loop body builds from [sample_meta_data]. *)
Definition sample_query : string :=
  "metadata.title:" ++ dquote ++ "Sample Dataset" ++ dquote
  ++ " metadata.creators.name:" ++ dquote ++ "A. Researcher" ++ dquote.

Definition newversion_doc : json :=
  JObj [("links",
         JObj [("latest_draft",
                JStr "https://sandbox.zenodo.org/api/deposit/depositions/43")])].

(** The search finds nothing; a deposition is created. *)
Definition no_hit_world : World :=
  sample_world everything
    [answer 200 (hits_doc []); answer 201 sample_draft; answer 200 JNull;
     answer 200 JNull; answer 202 JNull].

(** The search finds deposition 42; draft 43 is its new version. *)
Definition one_hit_world : World :=
  sample_world everything
    [answer 200 (hits_doc [sample_hit]); answer 201 newversion_doc;
     answer 200 sample_draft; answer 200 JNull; answer 202 JNull].

(** The service asked for a new version, then for the draft. *)
Definition version_world : World :=
  sample_world everything [answer 201 newversion_doc; answer 200 sample_draft].

(** The first hit of the search has the id 0. *)
Definition falsy_hit : json :=
  deposition_doc (JNum 0) "https://sandbox.zenodo.org/api/files/b0"
    "https://sandbox.zenodo.org/deposit/0" EmptyString.

Definition falsy_hit_world : World :=
  sample_world everything
    [answer 200 (hits_doc [falsy_hit]); answer 201 sample_draft; answer 200 JNull;
     answer 200 JNull; answer 202 JNull].

(** A server whose host name holds the word "deposit" as well. *)
Definition deposit_host_hit : json :=
  deposition_doc (JNum 7) "https://deposit.example.org/api/files/b7"
    "https://deposit.example.org/deposit/7" EmptyString.

Definition deposit_host_world : World :=
  sample_world everything [answer 200 (hits_doc [deposit_host_hit])].

(** The search is refused with status 400 and an error document. *)
Definition refused_search_world : World :=
  sample_world everything
    [answer 400 (JObj [("status", JNum 400); ("message", JStr "Invalid query syntax.")])].

(** The search fails with status 500, its body an empty result. *)
Definition failed_search_world : World :=
  sample_world everything
    [answer 500 (hits_doc []); answer 201 sample_draft; answer 200 JNull; answer 200 JNull].

(** No file exists. *)
Definition empty_disk_world : World := sample_world nothing [].

(** ** Reference definitions for the whole run *)

(** What [main] has in hand when its loop starts: the token and the
    metadata document; [None] when it stops before the loop. *)
Definition setup (W : World) (args : arguments) : option (string * json) :=
  match getenv W "ZENODO_ACCESS_TOKEN" with
  | None => None
  | Some token =>
      let config := abspath W (config_file args) in
      if PyStr.nonempty token && isfile W config && can_open W config then
        match yaml_safe_load W config with
        | None => None
        | Some doc =>
            match Py.getitem doc "zenodo_metadata" with
            | Ok meta_data => Some (token, meta_data)
            | Raise _ => None
            end
        end
      else None
  end.

(** Is there a token in the environment, and is it not empty? *)
Definition token_given (W : World) : bool :=
  match getenv W "ZENODO_ACCESS_TOKEN" with
  | Some token => PyStr.nonempty token
  | None => false
  end.

(** Does the configuration file load, and has the document the key
    [zenodo_metadata]? *)
Definition metadata_loaded (W : World) (args : arguments) : bool :=
  match yaml_safe_load W (abspath W (config_file args)) with
  | Some doc => is_ok (Py.getitem doc "zenodo_metadata")
  | None => false
  end.

Definition metadata_message (W : World) (args : arguments) : string :=
  "Please add metadata to the config file: " ++ abspath W (config_file args).

(** The method each operation uses. *)
Definition method_of (o : op) : method :=
  match o with
  | Search | FetchDeposition => GET
  | CreateDeposition | NewVersion | Publish => POST
  | UploadFile | AttachMetadata => PUT
  end.

(** How a call of the script looks on the wire: the method is that of its
    operation; the search carries no parameter, every other call carries
    the token as [access_token] and nothing else; and, the upload apart,
    the URL starts with the sandbox server. *)
Definition call_shape (token : string) (c : call) : Prop :=
  meth (snd c) = method_of (fst c)
  /\ params (snd c) = match fst c with Search => [] | _ => access token end
  /\ match fst c with
     | UploadFile => True
     | _ => PyStr.startswith default_server (url (snd c)) = true
     end.

(** [m] only adds calls, each of which satisfies [P]. *)
Definition appends {A} (P : call -> Prop) (m : M A) : Prop :=
  forall tr, exists calls, snd (m tr) = (tr ++ calls)%list /\ Forall P calls.

(** [m] raises nothing but exceptions that satisfy [P]. *)
Definition raises_only {A} (P : exn -> Prop) (m : M A) : Prop :=
  forall tr e, fst (m tr) = Raise e -> P e.

(** The exceptions that come from the script's own names and exits. *)
Definition is_script_error (e : exn) : bool :=
  match e with
  | NameError _ | SystemExit _ => true
  | _ => false
  end.

(** The exceptions of decoding a reply and of looking into a value. *)
Definition is_value_error (e : exn) : bool :=
  match e with
  | KeyError _ | TypeError | AttributeError _ | JSONDecodeError => true
  | _ => false
  end.

Definition bad_status (r : response) : Prop := (400 <= status_code r < 600)%Z.

(** [m] checks the status of each call but the search: it raises
    [HTTPError] exactly when the call it made last, not a search, was
    answered with a status from 400 to 599, and then with that status. *)
Definition status_checked (W : World) {A} (m : M A) : Prop :=
  forall tr, exists calls,
    snd (m tr) = (tr ++ calls)%list
    /\ (forall st, fst (m tr) = Raise (HTTPError st) ->
        exists before o rq r,
          calls = (before ++ [(o, rq)])%list /\ o <> Search
          /\ service W (map snd (tr ++ before)) rq = Reply r
          /\ status_code r = st /\ bad_status r)
    /\ (forall before o rq r,
          calls = (before ++ [(o, rq)])%list -> o <> Search ->
          service W (map snd (tr ++ before)) rq = Reply r -> bad_status r ->
          fst (m tr) = Raise (HTTPError (status_code r))).

(** A world given by its parts. *)
Definition script_world (token : option string) (files opens : string -> bool)
    (yaml : string -> option json) (answers : list reply) : World :=
  {| getenv := fun _ => token;
     abspath := fun path => "/data/" ++ path;
     isfile := files;
     can_open := opens;
     yaml_safe_load := yaml;
     repr := fun _ => EmptyString;
     service := scripted answers |}.

Definition sample_config : json := JObj [("zenodo_metadata", sample_meta_data)].

Definition sample_yaml (path : string) : option json :=
  if String.eqb path "/data/zenodo.yml" then Some sample_config else None.

Definition all_but_b (path : string) : bool := negb (String.eqb path "/data/b.txt").

Definition sample_arguments : arguments :=
  {| files_to_upload := ["a.txt"; "b.txt"; "c.txt"];
     config_file := "zenodo.yml";
     publish := false |}.

(** Three files are given, the second one does not exist; the first one is
    uploaded to a new deposition. *)
Definition batch_world : World :=
  script_world (Some "s3cret") all_but_b all_but_b sample_yaml
    [answer 200 (hits_doc []); answer 201 sample_draft; answer 200 JNull; answer 200 JNull].

(** No token in the environment. *)
Definition no_token_world : World :=
  script_world None everything everything sample_yaml [].

(** The configuration file does not exist. *)
Definition no_config_world : World :=
  script_world (Some "s3cret") nothing nothing sample_yaml [].

(** The configuration file exists but cannot be opened. *)
Definition locked_config_world : World :=
  script_world (Some "s3cret") everything nothing sample_yaml [].

(** The configuration file holds a list, not a mapping. *)
Definition bad_config_world : World :=
  script_world (Some "s3cret") everything everything (fun _ => Some (JArr [])) [].

(** The file exists but cannot be opened. *)
Definition locked_file_world : World :=
  script_world (Some "s3cret") everything nothing sample_yaml
    [answer 200 (hits_doc []); answer 201 sample_draft].

(** The upload is refused with status 403. *)
Definition refused_upload_world : World :=
  sample_world everything
    [answer 200 (hits_doc []); answer 201 sample_draft; answer 403 JNull].

(** ** Facts about the string operations *)

Example replace_ex1 :
  PyStr.replace "deposit" "record" "https://sandbox.zenodo.org/deposit/42"
  = "https://sandbox.zenodo.org/record/42".
Proof. reflexivity. Qed.

Example replace_ex2 : PyStr.replace "/" " " "a/b//c" = "a b  c".
Proof. reflexivity. Qed.

Example replace_ex3 : PyStr.replace "aa" "b" "aaaaa" = "bba".
Proof. reflexivity. Qed.

Example replace_ex4 : PyStr.replace EmptyString "-" "abc" = "-a-b-c-".
Proof. reflexivity. Qed.

Example split_ex1 : PyStr.split "/" "a/b//c/" = ["a"; "b"; EmptyString; "c"; EmptyString].
Proof. reflexivity. Qed.

Example of_int_ex : (PyStr.of_int 42, PyStr.of_int 0, PyStr.of_int (-7)) = ("42", "0", "-7").
Proof. reflexivity. Qed.

Example urlencode_ex :
  Url.urlencode [("q", "a b:c/d"); ("sort", "bestmatch")] = "q=a+b%3Ac%2Fd&sort=bestmatch".
Proof. reflexivity. Qed.

Lemma startswith_refl_app (s a b : string) :
  PyStr.startswith (s ++ a) (s ++ b) = PyStr.startswith a b.
Proof.
  induction s as [|c s IH]; simpl; [reflexivity|].
  now rewrite Ascii.eqb_refl.
Qed.

Lemma replace_one_char (a b : ascii) (s : string) :
  PyStr.replace (String a EmptyString) (String b EmptyString) s = map_char a b s.
Proof.
  unfold PyStr.replace.
  induction s as [|c s IH]; simpl; [reflexivity|].
  rewrite (Ascii.eqb_sym a c).
  destruct (Ascii.eqb c a); simpl; now rewrite IH.
Qed.

Lemma mem_map_char (c d : ascii) (s : string) :
  c <> d -> PyStr.mem c (map_char c d s) = false.
Proof.
  intros Hcd. induction s as [|e s IH]; simpl; [reflexivity|].
  rewrite IH, orb_false_r.
  destruct (Ascii.eqb e c) eqn:E.
  - now apply Ascii.eqb_neq.
  - rewrite Ascii.eqb_sym. exact E.
Qed.

Lemma length_map_char (c d : ascii) (s : string) :
  String.length (map_char c d s) = String.length s.
Proof. induction s; simpl; congruence. Qed.

Lemma split_not_nil (sep : ascii) (s : string) : PyStr.split sep s <> [].
Proof.
  destruct s as [|c s]; simpl; [discriminate|].
  destruct (Ascii.eqb c sep); [discriminate|].
  destruct (PyStr.split sep s); discriminate.
Qed.

Lemma split_no_sep (sep : ascii) (s : string) :
  PyStr.mem sep s = false -> PyStr.split sep s = [s].
Proof.
  induction s as [|c s IH]; simpl; [reflexivity|].
  intros H. apply orb_false_iff in H as [Hc Hs].
  rewrite Ascii.eqb_sym, Hc. now rewrite (IH Hs).
Qed.

Lemma last_cons_not_nil {A} (x : A) (l : list A) (d : A) :
  l <> [] -> last (x :: l) d = last l d.
Proof. destruct l; [congruence | reflexivity]. Qed.

(** The last piece of a split is what follows the last separator. *)
Lemma last_split_app (sep : ascii) (p seg : string) :
  PyStr.mem sep seg = false ->
  last (PyStr.split sep (p ++ String sep seg)) EmptyString = seg.
Proof.
  intros Hseg. induction p as [|c p IH].
  - simpl. rewrite Ascii.eqb_refl, (split_no_sep _ _ Hseg). reflexivity.
  - change (String c p ++ String sep seg) with (String c (p ++ String sep seg)).
    cbn [PyStr.split].
    destruct (Ascii.eqb c sep).
    + rewrite last_cons_not_nil by apply split_not_nil. exact IH.
    + destruct (PyStr.split sep (p ++ String sep seg)) as [|w ws] eqn:E.
      * now apply split_not_nil in E.
      * destruct ws as [|w' ws].
        -- exfalso. clear IH. revert w E.
           induction p as [|c' p IHp]; intros w E.
           ++ simpl in E. rewrite Ascii.eqb_refl in E. rewrite (split_no_sep _ _ Hseg) in E.
              discriminate.
           ++ change (String c' p ++ String sep seg) with (String c' (p ++ String sep seg)) in E.
              cbn [PyStr.split] in E.
              destruct (Ascii.eqb c' sep).
              ** injection E as _ E. now apply split_not_nil in E.
              ** destruct (PyStr.split sep (p ++ String sep seg)) as [|v vs] eqn:E'.
                 --- now apply split_not_nil in E'.
                 --- injection E as _ E. subst vs. now apply (IHp v).
        -- exact IH.
Qed.

Lemma replace_scan_skip (old new : string) (k : nat) (s : string) :
  PyStr.replace_scan old new k s = PyStr.replace_scan old new 0 (drop k s).
Proof.
  revert k. induction s as [|c s IH]; intros [|k]; try reflexivity.
  simpl PyStr.replace_scan at 1. rewrite IH. reflexivity.
Qed.

(** The recursion of [str.replace]: up to the first occurrence the text is
    kept, the occurrence becomes [new], and the scan resumes after it. *)
Lemma replace_find (o : ascii) (os new s : string) :
  let old := String o os in
  PyStr.replace old new s =
  match find old s with
  | None => s
  | Some n => take n s ++ new ++ PyStr.replace old new (drop (n + String.length old) s)
  end.
Proof.
  intros old. unfold PyStr.replace. subst old.
  induction s as [|c s IH]; [reflexivity|].
  cbn [PyStr.replace_scan find].
  destruct (PyStr.startswith (String o os) (String c s)) eqn:E.
  - rewrite replace_scan_skip. simpl. now rewrite Nat.sub_0_r.
  - rewrite IH. destruct (find (String o os) s) as [n|]; reflexivity.
Qed.

Lemma replace_at_most_once (o : ascii) (os new s : string) :
  at_most_once (String o os) s = true ->
  PyStr.replace (String o os) new s = replace_first (String o os) new s.
Proof.
  unfold at_most_once, replace_first. intros H.
  rewrite replace_find.
  destruct (find (String o os) s) as [n|]; [|reflexivity].
  rewrite replace_find.
  destruct (find (String o os) (drop (n + String.length (String o os)) s)); [discriminate|].
  reflexivity.
Qed.

(** ** Facts about the monad *)

Lemma bind_ok {A B} (m : M A) (k : A -> M B) tr a tr' :
  m tr = (Ok a, tr') -> bind m k tr = k a tr'.
Proof. unfold bind. now intros ->. Qed.

Lemma bind_raise {A B} (m : M A) (k : A -> M B) tr e tr' :
  m tr = (Raise e, tr') -> bind m k tr = (Raise e, tr').
Proof. unfold bind. now intros ->. Qed.

Lemma prefix_of_nil {A} (l : list A) : prefix_of [] l.
Proof. now exists l. Qed.

Lemma prefix_of_refl {A} (l : list A) : prefix_of l l.
Proof. exists []. apply app_nil_r. Qed.

Lemma prefix_of_cons {A} (x : A) (l full : list A) :
  prefix_of l full -> prefix_of (x :: l) (x :: full).
Proof. intros [rest <-]. now exists rest. Qed.

Lemma prefix_of_app {A} (l1 l full : list A) :
  prefix_of l full -> prefix_of (l1 ++ l) (l1 ++ full).
Proof. intros [rest <-]. exists rest. now rewrite app_assoc. Qed.

Lemma prefix_of_weaken {A} (l full more : list A) :
  prefix_of l full -> prefix_of l (full ++ more).
Proof. intros [rest <-]. exists (rest ++ more)%list. now rewrite app_assoc. Qed.

Lemma prefix_of_In {A} (x : A) (l full : list A) :
  prefix_of l full -> In x l -> In x full.
Proof. intros [rest <-] H. apply in_or_app. now left. Qed.

Lemma runs_ret {A} (a : A) : runs (ret a) [].
Proof.
  intros tr. exists []. simpl. rewrite app_nil_r.
  repeat split. apply prefix_of_nil.
Qed.

Lemma runs_fail {A} (e : exn) (full : list op) : runs (@raise A e) full.
Proof.
  intros tr. exists []. simpl. rewrite app_nil_r.
  repeat split; [apply prefix_of_nil | discriminate].
Qed.

Lemma runs_lift {A} (r : result A) : runs (lift r) [].
Proof.
  intros tr. exists []. simpl. rewrite app_nil_r.
  repeat split. apply prefix_of_nil.
Qed.

Lemma runs_bind {A B} (m : M A) (k : A -> M B) (l1 l2 : list op) :
  runs m l1 -> (forall a, runs (k a) l2) -> runs (bind m k) (l1 ++ l2).
Proof.
  intros Hm Hk tr. destruct (Hm tr) as (c1 & Htr & Hpre & Hfull).
  unfold bind. destruct (m tr) as [[a|e] tr1]; simpl in *; subst tr1.
  - destruct (Hk a (tr ++ c1)%list) as (c2 & Htr2 & Hpre2 & Hfull2).
    exists (c1 ++ c2)%list. rewrite map_app, <- (Hfull eq_refl). repeat split.
    + rewrite Htr2. symmetry. apply app_assoc.
    + now apply prefix_of_app.
    + intros H. now rewrite <- (Hfull2 H).
  - exists c1. repeat split; [now apply prefix_of_weaken | discriminate].
Qed.

Lemma runs_lift_bind {A B} (r : result A) (k : A -> M B) (l : list op) :
  (forall a, runs (k a) l) -> runs (bind (lift r) k) l.
Proof. intros H. apply (runs_bind (lift r) k [] l); [apply runs_lift | exact H]. Qed.

Section Properties.

Variable W : World.

Lemma http_reply (o : op) (rq : request) (tr : list call) (r : response) :
  service W (map snd tr) rq = Reply r ->
  http W o rq tr = (Ok r, (tr ++ [(o, rq)])%list).
Proof. unfold http. now intros ->. Qed.

Lemma runs_http (o : op) (rq : request) : runs (http W o rq) [o].
Proof.
  intros tr. exists [(o, rq)]. unfold http.
  destruct (service W (map snd tr) rq); simpl; repeat split; apply prefix_of_refl.
Qed.

Lemma runs_http_bind {B} (o : op) (rq : request) (k : response -> M B) (l : list op) :
  (forall r, runs (k r) l) -> runs (bind (http W o rq) k) (o :: l).
Proof. intros H. apply (runs_bind (http W o rq) k [o] l); [apply runs_http | exact H]. Qed.

Lemma runs_search title owner creators server :
  runs (search_for_deposition W title owner creators server) [Search].
Proof.
  unfold search_for_deposition.
  apply runs_lift_bind; intros q.
  apply runs_http_bind; intros r.
  apply runs_lift_bind; intros doc.
  apply runs_lift_bind; intros hits.
  apply runs_lift_bind; intros hits'.
  apply runs_lift_bind; intros [|deposition records]; [apply runs_ret | apply runs_lift].
Qed.

Lemma runs_create_new_version id token server :
  runs (create_new_version W id token server) [NewVersion; FetchDeposition].
Proof.
  unfold create_new_version.
  apply runs_http_bind; intros r.
  repeat (apply runs_lift_bind; intros ?).
  apply runs_http_bind; intros r'.
  repeat (apply runs_lift_bind; intros ?).
  apply runs_lift.
Qed.

Lemma runs_create_new_deposition token server :
  runs (create_new_deposition W token server) [CreateDeposition].
Proof.
  unfold create_new_deposition.
  apply runs_http_bind; intros r.
  repeat (apply runs_lift_bind; intros ?).
  apply runs_lift.
Qed.

Lemma runs_upload_to_zenodo filename bucket_url file_url filebase token :
  runs (upload_to_zenodo W filename bucket_url file_url filebase token) [UploadFile].
Proof.
  unfold upload_to_zenodo. destruct (can_open W filename); [|apply runs_fail].
  apply runs_http_bind; intros r. apply runs_lift.
Qed.

Lemma runs_add_meta_data globals id meta_data token server :
  runs (add_meta_data W globals id meta_data token server) [AttachMetadata].
Proof.
  unfold add_meta_data. destruct (Py.assoc "filename" globals); [|apply runs_fail].
  apply runs_http_bind; intros r. apply runs_lift.
Qed.

Lemma runs_publish_file id filebase token server :
  runs (publish_file W id filebase token server) [Publish].
Proof.
  unfold publish_file. apply runs_http_bind; intros r. apply runs_lift.
Qed.

Lemma runs_optional_publish (do_publish : bool) id filebase token server :
  runs (if do_publish then publish_file W id filebase token server else ret tt)
       (if do_publish then [Publish] else []).
Proof. destruct do_publish; [apply runs_publish_file | apply runs_ret]. Qed.

End Properties.

Lemma bind_assoc {A B C} (m : M A) (k : A -> M B) (k' : B -> M C) tr :
  bind (bind m k) k' tr = bind m (fun a => bind (k a) k') tr.
Proof. unfold bind. destruct (m tr) as [[a|e] tr']; reflexivity. Qed.

Lemma not_in_version_path (do_publish : bool) :
  ~ In AttachMetadata (version_path do_publish).
Proof. destruct do_publish; simpl; intuition discriminate. Qed.

Lemma not_in_deposition_path (do_publish : bool) :
  ~ In NewVersion (deposition_path do_publish).
Proof. destruct do_publish; simpl; intuition discriminate. Qed.

(** ** The search and the two paths of the loop body *)

Section Paths.

Variable W : World.

(** A call followed by code that makes the calls [l]. *)
Lemma http_then {B} (o : op) (rq : request) (k : response -> M B) (l : list op) :
  (forall r, runs (k r) l) ->
  forall tr, exists rest,
    snd (bind (http W o rq) k tr) = (tr ++ (o, rq) :: rest)%list
    /\ prefix_of (map fst rest) l
    /\ (is_ok (fst (bind (http W o rq) k tr)) = true -> map fst rest = l).
Proof.
  intros Hk tr. unfold bind, http.
  destruct (service W (map snd tr) rq) as [|r].
  - exists []. simpl. repeat split; [apply prefix_of_nil | discriminate].
  - destruct (Hk r (tr ++ [(o, rq)])%list) as (rest & Htr & Hpre & Hfull).
    exists rest. rewrite Htr, <- app_assoc. repeat split; assumption.
Qed.

(** What the search returns is read off the reply, whatever its status. *)
Lemma search_returns title owner creators server tr q r doc hits hits' records :
  search_query W title owner creators = Ok q ->
  service W (map snd tr) (search_request server q) = Reply r ->
  response_json r = Ok doc ->
  Py.getitem doc "hits" = Ok hits ->
  Py.getitem hits "hits" = Ok hits' ->
  Py.iter hits' = Ok records ->
  search_for_deposition W title owner creators server tr
  = (match records with
     | [] => Ok none_triple
     | deposition :: _ => triple_of deposition
     end, (tr ++ [(Search, search_request server q)])%list).
Proof.
  intros Hq Hr Hdoc Hhits Hhits' Hrecords.
  unfold search_for_deposition.
  rewrite (bind_ok _ _ tr q tr) by (unfold lift; now rewrite Hq).
  rewrite (bind_ok _ _ _ _ _ (http_reply W Search _ tr r Hr)).
  unfold bind, lift. rewrite Hdoc, Hhits, Hhits', Hrecords.
  destruct records; reflexivity.
Qed.

(** A search that returns has sent exactly its one request. *)
Lemma search_ok_trace title owner creators server tr t tr1 :
  search_for_deposition W title owner creators server tr = (Ok t, tr1) ->
  exists q, search_query W title owner creators = Ok q
            /\ tr1 = (tr ++ [(Search, search_request server q)])%list.
Proof.
  unfold search_for_deposition, bind, lift, http.
  destruct (search_query W title owner creators) as [q|e]; [|discriminate].
  destruct (service W (map snd tr) (search_request server q)) as [|r]; [discriminate|].
  intros H. exists q. split; [reflexivity|].
  destruct (response_json r) as [doc|]; [|discriminate].
  destruct (Py.getitem doc "hits") as [hits|]; [|discriminate].
  destruct (Py.getitem hits "hits") as [hits'|]; [|discriminate].
  destruct (Py.iter hits') as [[|d rs]|]; [| |discriminate].
  - unfold ret in H. congruence.
  - congruence.
Qed.

(** Once the file is there and the search has returned, the loop body goes
    on from the returned id alone. *)
Lemma upload_one_after_search token meta_data do_publish file tr title creators
      id bucket_url file_url tr1 :
  isfile W (abspath W file) = true ->
  search_arguments meta_data = Ok (title, creators) ->
  search_for_deposition W title None (Some (creator_names creators)) default_server tr
    = (Ok (id, bucket_url, file_url), tr1) ->
  upload_one W token meta_data do_publish file tr
  = (if negb (Py.truthy id) then
       ' (deposition_id, bucket_url, file_url) <- create_new_deposition W token default_server ;;
       upload_to_zenodo W file bucket_url file_url (basename (abspath W file)) token ;;;
       add_meta_data W
         (loop_globals token meta_data file (abspath W file) (basename (abspath W file)))
         deposition_id meta_data token default_server ;;;
       if do_publish
       then publish_file W deposition_id (basename (abspath W file)) token default_server
       else ret tt
     else
       ' (deposition_id, bucket_url, file_url) <-
           create_new_version W id token default_server ;;
       upload_to_zenodo W file bucket_url file_url (basename (abspath W file)) token ;;;
       if do_publish
       then publish_file W deposition_id (basename (abspath W file)) token default_server
       else ret tt) tr1.
Proof.
  intros Hfile Hargs Hsearch. unfold upload_one. rewrite Hfile. cbn [negb].
  rewrite (bind_ok _ _ tr (title, creators) tr) by (unfold lift; now rewrite Hargs).
  rewrite (bind_ok _ _ _ _ _ Hsearch). reflexivity.
Qed.

Lemma deposition_path_after_search token meta_data do_publish file tr title creators
      id bucket_url file_url tr1 :
  isfile W (abspath W file) = true ->
  search_arguments meta_data = Ok (title, creators) ->
  search_for_deposition W title None (Some (creator_names creators)) default_server tr
    = (Ok (id, bucket_url, file_url), tr1) ->
  Py.truthy id = false ->
  exists rest,
    snd (upload_one W token meta_data do_publish file tr)
    = (tr1 ++ (CreateDeposition, create_request token default_server) :: rest)%list
    /\ prefix_of (map fst rest)
         ([UploadFile; AttachMetadata] ++ (if do_publish then [Publish] else []))
    /\ (is_ok (fst (upload_one W token meta_data do_publish file tr)) = true ->
        map fst rest
        = ([UploadFile; AttachMetadata] ++ (if do_publish then [Publish] else []))%list).
Proof.
  intros Hfile Hargs Hsearch Hid.
  rewrite (upload_one_after_search _ _ _ _ _ _ _ _ _ _ _ Hfile Hargs Hsearch), Hid.
  cbn [negb]. unfold create_new_deposition. rewrite bind_assoc.
  apply http_then. intros r. cbv beta.
  apply (runs_bind _ _ [] _); [|intros [[d b] f]].
  - repeat (apply runs_lift_bind; intros ?). apply runs_lift.
  - apply (runs_bind _ _ [UploadFile] _); [apply runs_upload_to_zenodo | intros _].
    apply (runs_bind _ _ [AttachMetadata] _); [apply runs_add_meta_data | intros _].
    apply runs_optional_publish.
Qed.

Lemma version_path_after_search token meta_data do_publish file tr title creators
      id bucket_url file_url tr1 :
  isfile W (abspath W file) = true ->
  search_arguments meta_data = Ok (title, creators) ->
  search_for_deposition W title None (Some (creator_names creators)) default_server tr
    = (Ok (id, bucket_url, file_url), tr1) ->
  Py.truthy id = true ->
  exists rest,
    snd (upload_one W token meta_data do_publish file tr)
    = (tr1 ++ (NewVersion, newversion_request W id token default_server) :: rest)%list
    /\ prefix_of (map fst rest)
         ([FetchDeposition; UploadFile] ++ (if do_publish then [Publish] else []))
    /\ (is_ok (fst (upload_one W token meta_data do_publish file tr)) = true ->
        map fst rest
        = ([FetchDeposition; UploadFile] ++ (if do_publish then [Publish] else []))%list).
Proof.
  intros Hfile Hargs Hsearch Hid.
  rewrite (upload_one_after_search _ _ _ _ _ _ _ _ _ _ _ Hfile Hargs Hsearch), Hid.
  cbn [negb]. unfold create_new_version. rewrite bind_assoc.
  apply http_then. intros r. cbv beta.
  apply (runs_bind _ _ [FetchDeposition] _); [|intros [[d b] f]].
  - repeat (apply runs_lift_bind; intros ?).
    apply runs_http_bind; intros r'.
    repeat (apply runs_lift_bind; intros ?). apply runs_lift.
  - apply (runs_bind _ _ [UploadFile] _); [apply runs_upload_to_zenodo | intros _].
    apply runs_optional_publish.
Qed.

End Paths.

Lemma triple_of_fields (deposition id links bucket : json) (html : string) :
  Py.getitem deposition "id" = Ok id ->
  Py.getitem deposition "links" = Ok links ->
  Py.getitem links "bucket" = Ok bucket ->
  Py.getitem links "html" = Ok (JStr html) ->
  triple_of deposition = Ok (id, bucket, JStr (PyStr.replace "deposit" "record" html)).
Proof.
  intros Hid Hlinks Hbucket Hhtml. unfold triple_of.
  rewrite Hid, Hlinks. cbn [rbind]. rewrite Hbucket, Hhtml. reflexivity.
Qed.

(** ** The workflow for one file *)

Section Workflow.

Variable W : World.

(** C4: when the hit list of the search reply is empty the search returns
    the None triple, having sent its one request; the loop body then sends
    the create-deposition request next, and sends no new-version request
    for the file. *)
Theorem no_hits_new_deposition title owner creators zenodo_server tr q r doc hits hits' :
  search_query W title owner creators = Ok q ->
  service W (map snd tr) (search_request zenodo_server q) = Reply r ->
  response_json r = Ok doc ->
  Py.getitem doc "hits" = Ok hits ->
  Py.getitem hits "hits" = Ok hits' ->
  Py.iter hits' = Ok [] ->
  search_for_deposition W title owner creators zenodo_server tr
  = (Ok none_triple, (tr ++ [(Search, search_request zenodo_server q)])%list)
  /\ forall token meta_data do_publish file names,
       isfile W (abspath W file) = true ->
       search_arguments meta_data = Ok (title, names) ->
       owner = None ->
       creators = Some (creator_names names) ->
       zenodo_server = default_server ->
       exists rest,
         snd (upload_one W token meta_data do_publish file tr)
         = (tr ++ (Search, search_request default_server q)
               :: (CreateDeposition, create_request token default_server) :: rest)%list
         /\ prefix_of (Search :: CreateDeposition :: map fst rest)
                      (deposition_path do_publish)
         /\ ~ In NewVersion (Search :: CreateDeposition :: map fst rest).
Proof.
  intros Hq Hr Hdoc Hhits Hhits' Hnone.
  pose proof (search_returns W _ _ _ _ _ _ _ _ _ _ _ Hq Hr Hdoc Hhits Hhits' Hnone)
    as Hsearch.
  split; [exact Hsearch|].
  intros token meta_data do_publish file names Hfile Hargs -> -> ->.
  destruct (deposition_path_after_search W token meta_data do_publish file tr _ _
              JNull JNull JNull _ Hfile Hargs Hsearch eq_refl) as (rest & Htr & Hpre & _).
  exists rest. rewrite Htr, <- app_assoc.
  assert (Hp : prefix_of (Search :: CreateDeposition :: map fst rest)
                         (deposition_path do_publish))
    by (apply prefix_of_cons, prefix_of_cons, Hpre).
  repeat split; [exact Hp|].
  intros Hin. exact (not_in_deposition_path _ (prefix_of_In _ _ _ Hp Hin)).
Qed.

(** C6, as the code has it: when the search has returned a deposition
    whose id counts as true, the calls for the file are an initial part of
    search, new version, fetch, upload and, with [-p], publish, in this
    order; all of them when the loop body returns; the new version is
    asked of the id the search returned; and metadata is never attached. *)
Theorem found_makes_new_version token meta_data do_publish file tr title names
        id bucket_url file_url tr1 :
  isfile W (abspath W file) = true ->
  search_arguments meta_data = Ok (title, names) ->
  search_for_deposition W title None (Some (creator_names names)) default_server tr
    = (Ok (id, bucket_url, file_url), tr1) ->
  Py.truthy id = true ->
  exists calls,
    snd (upload_one W token meta_data do_publish file tr) = (tr ++ calls)%list
    /\ prefix_of (map fst calls) (version_path do_publish)
    /\ (is_ok (fst (upload_one W token meta_data do_publish file tr)) = true ->
        map fst calls = version_path do_publish)
    /\ nth_error calls 1 = Some (NewVersion, newversion_request W id token default_server)
    /\ ~ In AttachMetadata (map fst calls).
Proof.
  intros Hfile Hargs Hsearch Hid.
  destruct (version_path_after_search W token meta_data do_publish file tr _ _ _ _ _ _
              Hfile Hargs Hsearch Hid) as (rest & Htr & Hpre & Hfull).
  destruct (search_ok_trace W _ _ _ _ _ _ _ Hsearch) as (q & _ & ->).
  exists ((Search, search_request default_server q)
          :: (NewVersion, newversion_request W id token default_server) :: rest).
  assert (Hp : prefix_of (Search :: NewVersion :: map fst rest) (version_path do_publish))
    by (apply prefix_of_cons, prefix_of_cons, Hpre).
  rewrite Htr, <- app_assoc. cbn [map fst app]. repeat split.
  - exact Hp.
  - intros Hok. now rewrite (Hfull Hok).
  - intros Hin. exact (not_in_version_path _ (prefix_of_In _ _ _ Hp Hin)).
Qed.

(** C10: the loop body chooses its path by the truth value of the returned
    id alone: when the first hit of the search has an id that counts as
    false (0, the empty string, ...) the search still returns that hit's
    triple, and the loop body goes on to create a new deposition, without
    any new-version request. *)
Theorem falsy_id_new_deposition token meta_data do_publish file tr title names
        q r doc hits hits' hit others id links bucket html :
  isfile W (abspath W file) = true ->
  search_arguments meta_data = Ok (title, names) ->
  search_query W title None (Some (creator_names names)) = Ok q ->
  service W (map snd tr) (search_request default_server q) = Reply r ->
  response_json r = Ok doc ->
  Py.getitem doc "hits" = Ok hits ->
  Py.getitem hits "hits" = Ok hits' ->
  Py.iter hits' = Ok (hit :: others) ->
  Py.getitem hit "id" = Ok id ->
  Py.getitem hit "links" = Ok links ->
  Py.getitem links "bucket" = Ok bucket ->
  Py.getitem links "html" = Ok (JStr html) ->
  Py.truthy id = false ->
  fst (search_for_deposition W title None (Some (creator_names names)) default_server tr)
  = Ok (id, bucket, JStr (PyStr.replace "deposit" "record" html))
  /\ exists rest,
       snd (upload_one W token meta_data do_publish file tr)
       = (tr ++ (Search, search_request default_server q)
             :: (CreateDeposition, create_request token default_server) :: rest)%list
       /\ prefix_of (Search :: CreateDeposition :: map fst rest)
                    (deposition_path do_publish)
       /\ ~ In NewVersion (Search :: CreateDeposition :: map fst rest).
Proof.
  intros Hfile Hargs Hq Hr Hdoc Hhits Hhits' Hrecords Hid Hlinks Hbucket Hhtml Hfalsy.
  pose proof (search_returns W _ _ _ _ _ _ _ _ _ _ _ Hq Hr Hdoc Hhits Hhits' Hrecords)
    as Hsearch.
  cbv iota in Hsearch.
  rewrite (triple_of_fields _ _ _ _ _ Hid Hlinks Hbucket Hhtml) in Hsearch.
  split; [now rewrite Hsearch|].
  destruct (deposition_path_after_search W token meta_data do_publish file tr _ _ _ _ _ _
              Hfile Hargs Hsearch Hfalsy) as (rest & Htr & Hpre & _).
  exists rest. rewrite Htr, <- app_assoc.
  assert (Hp : prefix_of (Search :: CreateDeposition :: map fst rest)
                         (deposition_path do_publish))
    by (apply prefix_of_cons, prefix_of_cons, Hpre).
  repeat split; [exact Hp|].
  intros Hin. exact (not_in_deposition_path _ (prefix_of_In _ _ _ Hp Hin)).
Qed.

(** C8: a file that is not on the file system makes the loop body raise
    [FileNotFoundError] with no call made for it, and the loop over the
    files ends there. *)
Theorem missing_file_no_call token meta_data do_publish file later tr :
  isfile W (abspath W file) = false ->
  upload_one W token meta_data do_publish file tr
  = (Raise (FileNotFoundError (abspath W file)), tr)
  /\ for_each (upload_one W token meta_data do_publish) (file :: later) tr
     = (Raise (FileNotFoundError (abspath W file)), tr).
Proof.
  intros H.
  assert (Hone : upload_one W token meta_data do_publish file tr
                 = (Raise (FileNotFoundError (abspath W file)), tr))
    by (unfold upload_one; now rewrite H).
  split; [exact Hone|].
  cbn [for_each]. now apply bind_raise.
Qed.

(** C9: the progress message of [add_meta_data] reads [filename], which is
    not a parameter; when the module has no such name the function raises
    [NameError] and the PUT is never sent. *)
Theorem add_meta_data_name_error globals deposition_id meta_data token zenodo_server tr :
  Py.assoc "filename" globals = None ->
  add_meta_data W globals deposition_id meta_data token zenodo_server tr
  = (Raise (NameError "filename"), tr).
Proof. intros H. unfold add_meta_data. now rewrite H. Qed.

End Workflow.

(** ** The single operations *)

Lemma string_app_assoc (a b c : string) : (a ++ b) ++ c = a ++ (b ++ c).
Proof. induction a as [|x a IH]; simpl; [reflexivity | now rewrite IH]. Qed.

Lemma raise_for_status_error (r : response) :
  (400 <= status_code r < 600)%Z ->
  raise_for_status r = Raise (HTTPError (status_code r)).
Proof.
  intros [Hlo Hhi]. unfold raise_for_status.
  apply Z.leb_le in Hlo. apply Z.ltb_lt in Hhi. now rewrite Hlo, Hhi.
Qed.

Section Operations.

Variable W : World.

(** C2, as the code has it: for a title T, a non-empty owner O and the
    creators [A, B], the query is
    metadata.title:"T" owners:O metadata.creators.name:"A" OR "B"
    with every '/' turned into a space: no '/' is left, and no character
    is dropped. *)
Theorem query_slashes_become_spaces (T O A B : string) :
  O <> EmptyString ->
  search_query W (JStr T) (Some O) (Some (Py.PyList [JStr A; JStr B]))
  = Ok (map_char "/" " " (composed_query T O A B))
  /\ PyStr.mem "/" (map_char "/" " " (composed_query T O A B)) = false
  /\ String.length (map_char "/" " " (composed_query T O A B))
     = String.length (composed_query T O A B).
Proof.
  intros HO. split; [|split].
  - unfold search_query, fmt. cbn [Py.format].
    destruct O as [|c O]; [congruence|]. cbn [PyStr.nonempty].
    cbn [Py.iterable_truthy Py.join Py.consume rbind rmap Py.as_str PyStr.join].
    rewrite replace_one_char. unfold composed_query.
    repeat rewrite string_app_assoc. reflexivity.
  - apply mem_map_char. discriminate.
  - apply length_map_char.
Qed.

(** C3, as the code has it: when the reply lists at least one hit, the
    search returns the first hit's id, its bucket link, and its html link
    in which every occurrence of "deposit", taken from left to right, has
    become "record"; that is one substitution when the link holds a single
    occurrence. *)
Theorem search_returns_first_hit title owner creators zenodo_server tr q r doc hits hits'
        hit others id links bucket html :
  search_query W title owner creators = Ok q ->
  service W (map snd tr) (search_request zenodo_server q) = Reply r ->
  response_json r = Ok doc ->
  Py.getitem doc "hits" = Ok hits ->
  Py.getitem hits "hits" = Ok hits' ->
  Py.iter hits' = Ok (hit :: others) ->
  Py.getitem hit "id" = Ok id ->
  Py.getitem hit "links" = Ok links ->
  Py.getitem links "bucket" = Ok bucket ->
  Py.getitem links "html" = Ok (JStr html) ->
  search_for_deposition W title owner creators zenodo_server tr
  = (Ok (id, bucket, JStr (PyStr.replace "deposit" "record" html)),
     (tr ++ [(Search, search_request zenodo_server q)])%list)
  /\ PyStr.replace "deposit" "record" html
     = match find "deposit" html with
       | None => html
       | Some n => take n html ++ "record"
                   ++ PyStr.replace "deposit" "record" (drop (n + 7) html)
       end
  /\ (at_most_once "deposit" html = true ->
      PyStr.replace "deposit" "record" html = replace_first "deposit" "record" html).
Proof.
  intros Hq Hr Hdoc Hhits Hhits' Hrecords Hid Hlinks Hbucket Hhtml.
  split; [|split].
  - rewrite (search_returns W _ _ _ _ _ _ _ _ _ _ _ Hq Hr Hdoc Hhits Hhits' Hrecords).
    cbv iota. now rewrite (triple_of_fields _ _ _ _ _ Hid Hlinks Hbucket Hhtml).
  - apply (replace_find "d" "eposit" "record" html).
  - apply replace_at_most_once.
Qed.

(** C5: [create_new_version] takes the id of the new draft from the end of
    the [latest_draft] link of the new-version reply, what follows its last
    '/', then sends a GET for that id and returns the id, the bucket link
    and the html link, "deposit" replaced by "record", of the fetched
    deposition. *)
Theorem new_version_fetches_latest_draft deposition_id token zenodo_server tr
        r1 d1 links1 before segment r2 d2 id links bucket html :
  service W (map snd tr) (newversion_request W deposition_id token zenodo_server)
    = Reply r1 ->
  raise_for_status r1 = Ok tt ->
  response_json r1 = Ok d1 ->
  Py.getitem d1 "links" = Ok links1 ->
  Py.getitem links1 "latest_draft" = Ok (JStr (before ++ String "/" segment)) ->
  PyStr.mem "/" segment = false ->
  service W
    (map snd (tr ++ [(NewVersion, newversion_request W deposition_id token zenodo_server)]))
    (fetch_request segment token zenodo_server) = Reply r2 ->
  raise_for_status r2 = Ok tt ->
  response_json r2 = Ok d2 ->
  Py.getitem d2 "id" = Ok id ->
  Py.getitem d2 "links" = Ok links ->
  Py.getitem links "bucket" = Ok bucket ->
  Py.getitem links "html" = Ok (JStr html) ->
  create_new_version W deposition_id token zenodo_server tr
  = (Ok (id, bucket, JStr (PyStr.replace "deposit" "record" html)),
     (tr ++ [(NewVersion, newversion_request W deposition_id token zenodo_server);
             (FetchDeposition, fetch_request segment token zenodo_server)])%list)
  /\ url (fetch_request segment token zenodo_server)
     = zenodo_server ++ "deposit/depositions/" ++ segment.
Proof.
  intros Hr1 Hs1 Hd1 Hl1 Hdraft Hseg Hr2 Hs2 Hd2 Hid Hlinks Hbucket Hhtml.
  split; [|reflexivity].
  unfold create_new_version.
  rewrite (bind_ok _ _ _ _ _ (http_reply W NewVersion _ tr r1 Hr1)).
  unfold bind at 1 2 3 4 5, lift.
  rewrite Hs1, Hd1, Hl1, Hdraft. cbn [Py.split_last].
  rewrite (last_split_app _ _ _ Hseg).
  rewrite (bind_ok _ _ _ _ _ (http_reply W FetchDeposition _ _ r2 Hr2)).
  unfold bind, lift. rewrite Hs2, Hd2.
  rewrite (triple_of_fields _ _ _ _ _ Hid Hlinks Hbucket Hhtml).
  now rewrite <- app_assoc.
Qed.

(** C7: [publish_file] sends one POST, to <server>/<id>/actions/publish,
    with the token as the query parameter [access_token]; unlike the
    requests that create, version, fetch and describe a deposition, its
    URL does not go on from the server with deposit/depositions. *)
Theorem publish_url_skips_depositions deposition_id meta_data filebase token
        zenodo_server new_id tr :
  let rq := publish_request W deposition_id token zenodo_server in
  let under := PyStr.startswith (zenodo_server ++ "deposit/depositions") in
  snd (publish_file W deposition_id filebase token zenodo_server tr)
  = (tr ++ [(Publish, rq)])%list
  /\ meth rq = POST
  /\ url rq = zenodo_server ++ "/" ++ fmt W deposition_id ++ "/actions/publish"
  /\ params rq = [("access_token", token)]
  /\ under (url rq) = false
  /\ under (url (create_request token zenodo_server)) = true
  /\ under (url (newversion_request W deposition_id token zenodo_server)) = true
  /\ under (url (fetch_request new_id token zenodo_server)) = true
  /\ under (url (metadata_request W deposition_id meta_data token zenodo_server)) = true.
Proof.
  cbv zeta. repeat split.
  - unfold publish_file, bind, http, lift.
    destruct (service W (map snd tr) _); reflexivity.
  - cbn [url publish_request]. now rewrite startswith_refl_app.
  - cbn [url create_request]. now rewrite startswith_refl_app.
  - cbn [url newversion_request]. now rewrite startswith_refl_app.
  - cbn [url fetch_request]. now rewrite startswith_refl_app.
  - cbn [url metadata_request]. now rewrite startswith_refl_app.
Qed.

(** The five functions that check the status stop at a status of 400 to
    599, the request just sent being their last. *)
Lemma create_new_deposition_fails_fast token zenodo_server tr r :
  service W (map snd tr) (create_request token zenodo_server) = Reply r ->
  (400 <= status_code r < 600)%Z ->
  create_new_deposition W token zenodo_server tr
  = (Raise (HTTPError (status_code r)),
     (tr ++ [(CreateDeposition, create_request token zenodo_server)])%list).
Proof.
  intros Hr Hst. unfold create_new_deposition.
  rewrite (bind_ok _ _ _ _ _ (http_reply W _ _ tr r Hr)).
  unfold bind, lift. now rewrite (raise_for_status_error r Hst).
Qed.

Lemma create_new_version_fails_fast id token zenodo_server tr r :
  service W (map snd tr) (newversion_request W id token zenodo_server) = Reply r ->
  (400 <= status_code r < 600)%Z ->
  create_new_version W id token zenodo_server tr
  = (Raise (HTTPError (status_code r)),
     (tr ++ [(NewVersion, newversion_request W id token zenodo_server)])%list).
Proof.
  intros Hr Hst. unfold create_new_version.
  rewrite (bind_ok _ _ _ _ _ (http_reply W _ _ tr r Hr)).
  unfold bind at 1, lift. now rewrite (raise_for_status_error r Hst).
Qed.

Lemma upload_to_zenodo_fails_fast filename bucket_url file_url filebase token tr r :
  can_open W filename = true ->
  service W (map snd tr) (upload_request W filename bucket_url filebase token) = Reply r ->
  (400 <= status_code r < 600)%Z ->
  upload_to_zenodo W filename bucket_url file_url filebase token tr
  = (Raise (HTTPError (status_code r)),
     (tr ++ [(UploadFile, upload_request W filename bucket_url filebase token)])%list).
Proof.
  intros Hopen Hr Hst. unfold upload_to_zenodo. rewrite Hopen.
  rewrite (bind_ok _ _ _ _ _ (http_reply W _ _ tr r Hr)).
  unfold lift. now rewrite (raise_for_status_error r Hst).
Qed.

Lemma add_meta_data_fails_fast globals v id meta_data token zenodo_server tr r :
  Py.assoc "filename" globals = Some v ->
  service W (map snd tr) (metadata_request W id meta_data token zenodo_server) = Reply r ->
  (400 <= status_code r < 600)%Z ->
  add_meta_data W globals id meta_data token zenodo_server tr
  = (Raise (HTTPError (status_code r)),
     (tr ++ [(AttachMetadata, metadata_request W id meta_data token zenodo_server)])%list).
Proof.
  intros Hname Hr Hst. unfold add_meta_data. rewrite Hname.
  rewrite (bind_ok _ _ _ _ _ (http_reply W _ _ tr r Hr)).
  unfold lift. now rewrite (raise_for_status_error r Hst).
Qed.

Lemma fetch_fails_fast id token zenodo_server tr r1 d1 links1 draft segment r :
  service W (map snd tr) (newversion_request W id token zenodo_server) = Reply r1 ->
  raise_for_status r1 = Ok tt ->
  response_json r1 = Ok d1 ->
  Py.getitem d1 "links" = Ok links1 ->
  Py.getitem links1 "latest_draft" = Ok draft ->
  Py.split_last draft "/" = Ok segment ->
  service W
    (map snd (tr ++ [(NewVersion, newversion_request W id token zenodo_server)]))
    (fetch_request segment token zenodo_server) = Reply r ->
  (400 <= status_code r < 600)%Z ->
  create_new_version W id token zenodo_server tr
  = (Raise (HTTPError (status_code r)),
     (tr ++ [(NewVersion, newversion_request W id token zenodo_server);
             (FetchDeposition, fetch_request segment token zenodo_server)])%list).
Proof.
  intros Hr1 Hs1 Hd1 Hl1 Hdraft Hseg Hr Hst. unfold create_new_version.
  rewrite (bind_ok _ _ _ _ _ (http_reply W NewVersion _ tr r1 Hr1)).
  unfold bind at 1 2 3 4 5, lift.
  rewrite Hs1, Hd1, Hl1, Hdraft, Hseg.
  rewrite (bind_ok _ _ _ _ _ (http_reply W FetchDeposition _ _ r Hr)).
  unfold bind at 1, lift. rewrite (raise_for_status_error r Hst).
  now rewrite <- app_assoc.
Qed.

Lemma publish_file_fails_fast id filebase token zenodo_server tr r :
  service W (map snd tr) (publish_request W id token zenodo_server) = Reply r ->
  (400 <= status_code r < 600)%Z ->
  publish_file W id filebase token zenodo_server tr
  = (Raise (HTTPError (status_code r)),
     (tr ++ [(Publish, publish_request W id token zenodo_server)])%list).
Proof.
  intros Hr Hst. unfold publish_file.
  rewrite (bind_ok _ _ _ _ _ (http_reply W _ _ tr r Hr)).
  unfold lift. now rewrite (raise_for_status_error r Hst).
Qed.

End Operations.

(** In the script's own run the name [filename] is bound when
    [add_meta_data] is called. *)
Lemma loop_globals_filename token meta_data file filename filebase :
  Py.assoc "filename" (loop_globals token meta_data file filename filebase)
  = Some (JStr filename).
Proof. reflexivity. Qed.

(** ** Concrete runs *)

(** C1: the search is the one call whose status is not checked.  A status
    400 with an error document ends in a [KeyError] that carries no status,
    and a status 500 whose body is an empty result goes unnoticed: the
    loop body goes on to create a deposition, upload and attach metadata. *)
Theorem search_status_unchecked :
  service refused_search_world [] (search_request default_server sample_query)
  = answer 400 (JObj [("status", JNum 400); ("message", JStr "Invalid query syntax.")])
  /\ upload_one refused_search_world "s3cret" sample_meta_data false "a.txt" []
     = (Raise (KeyError "hits"), [(Search, search_request default_server sample_query)])
  /\ service failed_search_world [] (search_request default_server sample_query)
     = answer 500 (hits_doc [])
  /\ fst (upload_one failed_search_world "s3cret" sample_meta_data false "a.txt" [])
     = Ok tt
  /\ map fst (snd (upload_one failed_search_world "s3cret" sample_meta_data false "a.txt" []))
     = [Search; CreateDeposition; UploadFile; AttachMetadata].
Proof. repeat split. Qed.

(** C2 fails as stated: the slash of the title "a/b" is not removed. *)
Lemma query_slash_not_removed :
  search_query no_hit_world (JStr "a/b") (Some "o") (Some (Py.PyList [JStr "x"; JStr "y"]))
  <> Ok (remove_char "/" (composed_query "a/b" "o" "x" "y")).
Proof. vm_compute. discriminate. Qed.

Lemma query_slashes_become_spaces_witness :
  "o" <> EmptyString
  /\ search_query no_hit_world (JStr "a/b") (Some "o") (Some (Py.PyList [JStr "x"; JStr "y"]))
     = Ok (map_char "/" " " (composed_query "a/b" "o" "x" "y")).
Proof.
  assert (H : "o" <> EmptyString) by discriminate.
  split; [exact H|].
  exact (proj1 (query_slashes_become_spaces no_hit_world "a/b" "o" "x" "y" H)).
Defined.

(** C3 fails as stated: both occurrences of "deposit" in the link are
    replaced, not one. *)
Lemma record_url_replaced_twice :
  fst (search_for_deposition deposit_host_world (JStr "t") None None default_server [])
  = Ok (JNum 7, JStr "https://deposit.example.org/api/files/b7",
        JStr "https://record.example.org/record/7")
  /\ fst (search_for_deposition deposit_host_world (JStr "t") None None default_server [])
     <> Ok (JNum 7, JStr "https://deposit.example.org/api/files/b7",
            JStr (replace_first "deposit" "record" "https://deposit.example.org/deposit/7")).
Proof. split; [reflexivity | vm_compute; discriminate]. Qed.

Lemma search_returns_first_hit_witness :
  search_for_deposition one_hit_world (JStr "Sample Dataset") None
    (Some (creator_names sample_creators)) default_server []
  = (Ok (JNum 42, JStr "https://sandbox.zenodo.org/api/files/b42",
         JStr (PyStr.replace "deposit" "record" "https://sandbox.zenodo.org/deposit/42")),
     [(Search, search_request default_server sample_query)]).
Proof.
  exact (proj1 (search_returns_first_hit one_hit_world
    (JStr "Sample Dataset") None (Some (creator_names sample_creators)) default_server []
    sample_query (Response 200 (Some (hits_doc [sample_hit]))) (hits_doc [sample_hit])
    (JObj [("hits", JArr [sample_hit])]) (JArr [sample_hit]) sample_hit [] (JNum 42)
    (JObj [("bucket", JStr "https://sandbox.zenodo.org/api/files/b42");
           ("html", JStr "https://sandbox.zenodo.org/deposit/42");
           ("latest_draft", JStr "https://sandbox.zenodo.org/api/deposit/depositions/42")])
    (JStr "https://sandbox.zenodo.org/api/files/b42")
    "https://sandbox.zenodo.org/deposit/42"
    eq_refl eq_refl eq_refl eq_refl eq_refl eq_refl eq_refl eq_refl eq_refl eq_refl)).
Defined.

Lemma no_hits_new_deposition_witness :
  search_for_deposition no_hit_world (JStr "Sample Dataset") None
    (Some (creator_names sample_creators)) default_server []
  = (Ok none_triple, [(Search, search_request default_server sample_query)])
  /\ exists rest,
       snd (upload_one no_hit_world "s3cret" sample_meta_data true "a.txt" [])
       = (Search, search_request default_server sample_query)
         :: (CreateDeposition, create_request "s3cret" default_server) :: rest
       /\ prefix_of (Search :: CreateDeposition :: map fst rest) (deposition_path true)
       /\ ~ In NewVersion (Search :: CreateDeposition :: map fst rest).
Proof.
  destruct (no_hits_new_deposition no_hit_world
    (JStr "Sample Dataset") None (Some (creator_names sample_creators)) default_server []
    sample_query (Response 200 (Some (hits_doc []))) (hits_doc [])
    (JObj [("hits", JArr [])]) (JArr [])
    eq_refl eq_refl eq_refl eq_refl eq_refl eq_refl) as [Hsearch Hloop].
  split; [exact Hsearch|].
  exact (Hloop "s3cret" sample_meta_data true "a.txt" sample_creators
           eq_refl eq_refl eq_refl eq_refl eq_refl).
Defined.

Lemma new_version_fetches_latest_draft_witness :
  create_new_version version_world (JNum 42) "s3cret" default_server []
  = (Ok (JNum 43, JStr "https://sandbox.zenodo.org/api/files/b43",
         JStr (PyStr.replace "deposit" "record" "https://sandbox.zenodo.org/deposit/43")),
     [(NewVersion, newversion_request version_world (JNum 42) "s3cret" default_server);
      (FetchDeposition, fetch_request "43" "s3cret" default_server)])
  /\ url (fetch_request "43" "s3cret" default_server)
     = default_server ++ "deposit/depositions/" ++ "43".
Proof.
  exact (new_version_fetches_latest_draft version_world (JNum 42) "s3cret" default_server []
    (Response 201 (Some newversion_doc)) newversion_doc
    (JObj [("latest_draft", JStr "https://sandbox.zenodo.org/api/deposit/depositions/43")])
    "https://sandbox.zenodo.org/api/deposit/depositions" "43"
    (Response 200 (Some sample_draft)) sample_draft (JNum 43)
    (JObj [("bucket", JStr "https://sandbox.zenodo.org/api/files/b43");
           ("html", JStr "https://sandbox.zenodo.org/deposit/43");
           ("latest_draft", JStr "https://sandbox.zenodo.org/api/deposit/depositions/43")])
    (JStr "https://sandbox.zenodo.org/api/files/b43")
    "https://sandbox.zenodo.org/deposit/43"
    eq_refl eq_refl eq_refl eq_refl eq_refl eq_refl eq_refl eq_refl eq_refl eq_refl
    eq_refl eq_refl eq_refl).
Defined.

(** C6 fails as stated: the search finds a deposition, the one with id 0,
    and metadata is attached all the same; the calls are not those of the
    new-version path. *)
Lemma found_falsy_id_attaches_metadata :
  fst (search_for_deposition falsy_hit_world (JStr "Sample Dataset") None
         (Some (creator_names sample_creators)) default_server [])
  = Ok (JNum 0, JStr "https://sandbox.zenodo.org/api/files/b0",
        JStr "https://sandbox.zenodo.org/record/0")
  /\ map fst (snd (upload_one falsy_hit_world "s3cret" sample_meta_data false "a.txt" []))
     = [Search; CreateDeposition; UploadFile; AttachMetadata]
  /\ In AttachMetadata
       (map fst (snd (upload_one falsy_hit_world "s3cret" sample_meta_data false "a.txt" [])))
  /\ ~ prefix_of
        (map fst (snd (upload_one falsy_hit_world "s3cret" sample_meta_data false "a.txt" [])))
        (version_path false).
Proof.
  split; [reflexivity|]. split; [reflexivity|]. split.
  - cbn. auto.
  - intros [rest H]. cbn in H. discriminate H.
Qed.

Lemma found_makes_new_version_witness :
  Py.truthy (JNum 42) = true
  /\ fst (upload_one one_hit_world "s3cret" sample_meta_data true "a.txt" []) = Ok tt
  /\ exists calls,
       snd (upload_one one_hit_world "s3cret" sample_meta_data true "a.txt" []) = calls
       /\ map fst calls = [Search; NewVersion; FetchDeposition; UploadFile; Publish]
       /\ nth_error calls 1
          = Some (NewVersion, newversion_request one_hit_world (JNum 42) "s3cret" default_server)
       /\ ~ In AttachMetadata (map fst calls).
Proof.
  split; [reflexivity|]. split; [reflexivity|].
  destruct (found_makes_new_version one_hit_world "s3cret" sample_meta_data true "a.txt" []
              (JStr "Sample Dataset") sample_creators (JNum 42)
              (JStr "https://sandbox.zenodo.org/api/files/b42")
              (JStr "https://sandbox.zenodo.org/record/42")
              [(Search, search_request default_server sample_query)]
              eq_refl eq_refl eq_refl eq_refl)
    as (calls & Htr & _ & Hfull & Hnth & Hno).
  exists calls. split; [exact Htr|]. split; [exact (Hfull eq_refl)|].
  split; [exact Hnth | exact Hno].
Defined.

Lemma falsy_id_new_deposition_witness :
  Py.truthy (JNum 0) = false
  /\ fst (search_for_deposition falsy_hit_world (JStr "Sample Dataset") None
            (Some (creator_names sample_creators)) default_server [])
     = Ok (JNum 0, JStr "https://sandbox.zenodo.org/api/files/b0",
           JStr (PyStr.replace "deposit" "record" "https://sandbox.zenodo.org/deposit/0"))
  /\ exists rest,
       snd (upload_one falsy_hit_world "s3cret" sample_meta_data false "a.txt" [])
       = (Search, search_request default_server sample_query)
         :: (CreateDeposition, create_request "s3cret" default_server) :: rest
       /\ prefix_of (Search :: CreateDeposition :: map fst rest) (deposition_path false)
       /\ ~ In NewVersion (Search :: CreateDeposition :: map fst rest).
Proof.
  split; [reflexivity|].
  exact (falsy_id_new_deposition falsy_hit_world "s3cret" sample_meta_data false "a.txt" []
    (JStr "Sample Dataset") sample_creators sample_query
    (Response 200 (Some (hits_doc [falsy_hit]))) (hits_doc [falsy_hit])
    (JObj [("hits", JArr [falsy_hit])]) (JArr [falsy_hit]) falsy_hit [] (JNum 0)
    (JObj [("bucket", JStr "https://sandbox.zenodo.org/api/files/b0");
           ("html", JStr "https://sandbox.zenodo.org/deposit/0");
           ("latest_draft", JStr EmptyString)])
    (JStr "https://sandbox.zenodo.org/api/files/b0")
    "https://sandbox.zenodo.org/deposit/0"
    eq_refl eq_refl eq_refl eq_refl eq_refl eq_refl eq_refl eq_refl eq_refl eq_refl
    eq_refl eq_refl eq_refl).
Defined.

Lemma missing_file_no_call_witness :
  isfile empty_disk_world (abspath empty_disk_world "a.txt") = false
  /\ upload_one empty_disk_world "s3cret" sample_meta_data true "a.txt" []
     = (Raise (FileNotFoundError "/data/a.txt"), [])
  /\ for_each (upload_one empty_disk_world "s3cret" sample_meta_data true)
       ["a.txt"; "b.txt"] []
     = (Raise (FileNotFoundError "/data/a.txt"), []).
Proof.
  split; [reflexivity|].
  exact (missing_file_no_call empty_disk_world "s3cret" sample_meta_data true "a.txt"
           ["b.txt"] [] eq_refl).
Defined.

Lemma add_meta_data_name_error_witness :
  Py.assoc "filename" [("token", JStr "s3cret")] = None
  /\ add_meta_data no_hit_world [("token", JStr "s3cret")] (JNum 43) sample_meta_data
       "s3cret" default_server []
     = (Raise (NameError "filename"), []).
Proof.
  split; [reflexivity|].
  exact (add_meta_data_name_error no_hit_world [("token", JStr "s3cret")] (JNum 43)
           sample_meta_data "s3cret" default_server [] eq_refl).
Defined.

(** ** The whole run *)

Lemma for_each_app {A} (f : A -> M unit) (l1 l2 : list A) tr :
  for_each f (l1 ++ l2) tr = bind (for_each f l1) (fun _ => for_each f l2) tr.
Proof.
  revert tr. induction l1 as [|x l1 IH]; intros tr; [reflexivity|].
  cbn [for_each app]. rewrite bind_assoc.
  destruct (f x tr) as [[[]|e] tr1] eqn:E.
  - do 2 rewrite (bind_ok _ _ _ _ _ E). apply IH.
  - do 2 rewrite (bind_raise _ _ _ _ _ E). reflexivity.
Qed.

Lemma main_after_setup (W : World) args token meta_data tr :
  setup W args = Some (token, meta_data) ->
  main W args tr
  = for_each (upload_one W token meta_data (publish args)) (files_to_upload args) tr.
Proof.
  unfold setup, main.
  destruct (getenv W "ZENODO_ACCESS_TOKEN") as [t|]; [|discriminate].
  destruct (PyStr.nonempty t); [|discriminate].
  destruct (isfile W (abspath W (config_file args))); [|discriminate].
  destruct (can_open W (abspath W (config_file args))); [|discriminate].
  cbn [andb negb].
  destruct (yaml_safe_load W (abspath W (config_file args))) as [doc|]; [|discriminate].
  destruct (Py.getitem doc "zenodo_metadata") as [m|]; [|discriminate].
  intros H. injection H as -> ->. reflexivity.
Qed.

(** X1: [main] stops with no call made, and each cause has its own
    exception, checked in this order: a missing or empty token gives
    [SystemExit] with the message about the token; a configuration file
    that does not exist gives [FileNotFoundError] for its absolute path;
    one that cannot be opened gives [OSError] for that path; one that does
    not load, or loads to a document without the key [zenodo_metadata],
    gives [SystemExit] with the message about the metadata. *)
Theorem main_stops_before_any_call (W : World) args tr :
  let config := abspath W (config_file args) in
  (token_given W = false ->
   main W args tr = (Raise (SystemExit no_token_message), tr))
  /\ (token_given W = true -> isfile W config = false ->
      main W args tr = (Raise (FileNotFoundError config), tr))
  /\ (token_given W = true -> isfile W config = true -> can_open W config = false ->
      main W args tr = (Raise (OSError config), tr))
  /\ (token_given W = true -> isfile W config = true -> can_open W config = true ->
      metadata_loaded W args = false ->
      main W args tr = (Raise (SystemExit (metadata_message W args)), tr)).
Proof.
  cbv zeta. unfold token_given, metadata_loaded, main, metadata_message, raise.
  destruct (getenv W "ZENODO_ACCESS_TOKEN") as [t|];
    [|repeat split; intros; try reflexivity; discriminate].
  destruct (PyStr.nonempty t); cbn [negb];
    [|repeat split; intros; try reflexivity; discriminate].
  repeat split.
  - discriminate.
  - intros _ Hfile. now rewrite Hfile.
  - intros _ Hfile Hopen. now rewrite Hfile, Hopen.
  - intros _ Hfile Hopen Hload. rewrite Hfile, Hopen. cbn [negb].
    destruct (yaml_safe_load W (abspath W (config_file args))) as [doc|]; [|reflexivity].
    destruct (Py.getitem doc "zenodo_metadata") as [m|]; [discriminate Hload | reflexivity].
Qed.

(** X3: the files are handled in order and the first failure ends the run:
    when the files before [file] went through and [file] raises, [main]
    raises the same exception, and the calls made are those made up to
    that point, none for the files after it. *)
Theorem main_stops_at_first_failure (W : World) args token meta_data done file later
        tr tr1 e tr2 :
  setup W args = Some (token, meta_data) ->
  files_to_upload args = (done ++ file :: later)%list ->
  for_each (upload_one W token meta_data (publish args)) done tr = (Ok tt, tr1) ->
  upload_one W token meta_data (publish args) file tr1 = (Raise e, tr2) ->
  main W args tr = (Raise e, tr2).
Proof.
  intros Hsetup Hfiles Hdone Hfile.
  rewrite (main_after_setup W _ _ _ _ Hsetup), Hfiles, for_each_app.
  rewrite (bind_ok _ _ _ _ _ Hdone). cbn [for_each].
  now apply bind_raise.
Qed.

(** *** Which exceptions can come out *)

Lemma raises_only_ret {A} (P : exn -> Prop) (a : A) : raises_only P (ret a).
Proof. intros tr e H. discriminate. Qed.

Lemma raises_only_raise {A} (P : exn -> Prop) (e : exn) :
  P e -> raises_only P (@raise A e).
Proof. intros He tr e' H. injection H as <-. exact He. Qed.

Lemma raises_only_lift {A} (P : exn -> Prop) (r : result A) :
  (forall e, r = Raise e -> P e) -> raises_only P (lift r).
Proof. intros Hr tr e H. now apply Hr. Qed.

Lemma raises_only_bind {A B} (P : exn -> Prop) (m : M A) (k : A -> M B) :
  raises_only P m -> (forall a, raises_only P (k a)) -> raises_only P (bind m k).
Proof.
  intros Hm Hk tr e. unfold bind.
  pose proof (Hm tr) as Hm'. destruct (m tr) as [[a|e'] tr1]; cbn [fst] in *.
  - apply Hk.
  - intros H. injection H as <-. now apply Hm'.
Qed.

Lemma raises_only_http (W : World) (P : exn -> Prop) o rq :
  P ConnectionError -> raises_only P (http W o rq).
Proof.
  intros HP tr e. unfold http.
  destruct (service W (map snd tr) rq); cbn [fst]; [|discriminate].
  intros H. injection H as <-. exact HP.
Qed.

Lemma raises_only_for_each {A} (P : exn -> Prop) (f : A -> M unit) (l : list A) :
  (forall x, raises_only P (f x)) -> raises_only P (for_each f l).
Proof.
  intros Hf. induction l as [|x l IH]; cbn [for_each].
  - apply raises_only_ret.
  - apply raises_only_bind; [apply Hf | intros _; exact IH].
Qed.

Lemma getitem_error j k e : Py.getitem j k = Raise e -> is_value_error e = true.
Proof.
  destruct j; cbn [Py.getitem]; try (intros H; injection H as <-; reflexivity).
  destruct (Py.assoc k items); [discriminate|].
  intros H. injection H as <-. reflexivity.
Qed.

Lemma iter_error j e : Py.iter j = Raise e -> is_value_error e = true.
Proof. destruct j; cbn [Py.iter]; intros H; try discriminate; now injection H as <-. Qed.

Lemma response_json_error r e : response_json r = Raise e -> is_value_error e = true.
Proof.
  unfold response_json. destruct (content r); [discriminate|].
  intros H. now injection H as <-.
Qed.

Lemma replace_error j old new e : Py.replace j old new = Raise e -> is_value_error e = true.
Proof. destruct j; cbn [Py.replace]; intros H; try discriminate; now injection H as <-. Qed.

Lemma split_last_error j sep e : Py.split_last j sep = Raise e -> is_value_error e = true.
Proof. destruct j; cbn [Py.split_last]; intros H; try discriminate; now injection H as <-. Qed.

Lemma as_str_error j e : Py.as_str j = Raise e -> is_value_error e = true.
Proof. destruct j; cbn [Py.as_str]; intros H; try discriminate; now injection H as <-. Qed.

Lemma rbind_error {A B} (P : exn -> Prop) (r : result A) (k : A -> result B) e :
  rbind r k = Raise e ->
  (forall e', r = Raise e' -> P e') ->
  (forall a e', k a = Raise e' -> P e') ->
  P e.
Proof.
  destruct r as [a|e0]; cbn [rbind]; intros H Hr Hk; [exact (Hk a e H)|].
  injection H as <-. now apply Hr.
Qed.

Lemma rmap_error {A B} (P : exn -> Prop) (f : A -> result B) (l : list A) e :
  rmap f l = Raise e -> (forall x e', f x = Raise e' -> P e') -> P e.
Proof.
  intros H Hf. revert e H.
  induction l as [|x l IH]; intros e H; cbn [rmap] in H; [discriminate|].
  apply (rbind_error P _ _ _ H); [apply Hf|].
  intros y e' H'. apply (rbind_error P _ _ _ H'); [exact IH | discriminate].
Qed.

Lemma triple_of_error deposition e :
  triple_of deposition = Raise e -> is_value_error e = true.
Proof.
  unfold triple_of. intros H.
  repeat (apply (rbind_error (fun x => is_value_error x = true) _ _ _ H); clear H; [apply getitem_error | intros ? ? H]).
  apply (rbind_error (fun x => is_value_error x = true) _ _ _ H); [apply replace_error | discriminate].
Qed.

Lemma search_arguments_error meta_data e :
  search_arguments meta_data = Raise e -> is_value_error e = true.
Proof.
  unfold search_arguments. intros H.
  repeat (apply (rbind_error (fun x => is_value_error x = true) _ _ _ H); clear H; [apply getitem_error | intros ? ? H]).
  apply (rbind_error (fun x => is_value_error x = true) _ _ _ H); [apply iter_error | discriminate].
Qed.

Lemma rmap_id_getitem_error (names : list json) k e :
  rmap (fun r : result json => r) (map (fun c => Py.getitem c k) names) = Raise e ->
  is_value_error e = true.
Proof.
  revert e. induction names as [|c names IH]; intros e; cbn [map rmap]; [discriminate|].
  intros H. apply (rbind_error (fun x => is_value_error x = true) _ _ _ H); [apply getitem_error|].
  intros y e' H'. apply (rbind_error (fun x => is_value_error x = true) _ _ _ H'); [exact IH | discriminate].
Qed.

(** The query of the loop body fails only on the values it is given. *)
Lemma search_query_names_error (W : World) title names e :
  search_query W title None (Some (creator_names names)) = Raise e ->
  is_value_error e = true.
Proof.
  unfold search_query, creator_names. cbn [Py.iterable_truthy]. intros H.
  apply (rbind_error (fun x => is_value_error x = true) _ _ _ H); [|discriminate]. clear H. intros e' H.
  apply (rbind_error (fun x => is_value_error x = true) _ _ _ H); [|discriminate]. clear H. intros e'' H.
  unfold Py.join in H.
  apply (rbind_error (fun x => is_value_error x = true) _ _ _ H); clear H.
  - cbn [Py.consume]. apply rmap_id_getitem_error.
  - intros items e3 H. apply (rbind_error (fun x => is_value_error x = true) _ _ _ H); [|discriminate].
    intros e4 H4. apply (rmap_error (fun x => is_value_error x = true) _ _ _ H4). apply as_str_error.
Qed.

Lemma raise_for_status_raises r e :
  raise_for_status r = Raise e -> e = HTTPError (status_code r) /\ bad_status r.
Proof.
  unfold raise_for_status, bad_status.
  destruct ((400 <=? status_code r)%Z && (status_code r <? 600)%Z) eqn:E; [|discriminate].
  intros H. injection H as <-. apply andb_true_iff in E as [Hlo Hhi].
  apply Z.leb_le in Hlo. apply Z.ltb_lt in Hhi. now split.
Qed.

Section Errors.

Variable W : World.
Variable P : exn -> Prop.
Hypothesis P_value : forall e, is_value_error e = true -> P e.
Hypothesis P_connection : P ConnectionError.
Hypothesis P_http : forall st, P (HTTPError st).
Hypothesis P_os : forall path, P (OSError path).
Hypothesis P_not_found : forall path, P (FileNotFoundError path).

Lemma raises_only_status r : raises_only P (lift (raise_for_status r)).
Proof.
  apply raises_only_lift. intros e H.
  destruct (raise_for_status_raises r e H) as [-> _]. apply P_http.
Qed.

Lemma raises_only_search title names server :
  raises_only P (search_for_deposition W title None (Some (creator_names names)) server).
Proof.
  unfold search_for_deposition.
  apply raises_only_bind;
    [apply raises_only_lift; intros e H; eapply P_value, search_query_names_error, H|].
  intros q. apply raises_only_bind; [now apply raises_only_http|]. intros r.
  apply raises_only_bind;
    [apply raises_only_lift; intros e H; eapply P_value, response_json_error, H|].
  intros doc. apply raises_only_bind;
    [apply raises_only_lift; intros e H; eapply P_value, getitem_error, H|].
  intros hits. apply raises_only_bind;
    [apply raises_only_lift; intros e H; eapply P_value, getitem_error, H|].
  intros hits'. apply raises_only_bind;
    [apply raises_only_lift; intros e H; eapply P_value, iter_error, H|].
  intros [|d records]; [apply raises_only_ret|].
  apply raises_only_lift; intros e H; eapply P_value, triple_of_error, H.
Qed.

Lemma raises_only_create_new_deposition token server :
  raises_only P (create_new_deposition W token server).
Proof.
  unfold create_new_deposition.
  apply raises_only_bind; [now apply raises_only_http|]. intros r.
  apply raises_only_bind; [apply raises_only_status|]. intros _.
  apply raises_only_bind;
    [apply raises_only_lift; intros e H; eapply P_value, response_json_error, H|].
  intros doc. apply raises_only_lift; intros e H; eapply P_value, triple_of_error, H.
Qed.

Lemma raises_only_create_new_version id token server :
  raises_only P (create_new_version W id token server).
Proof.
  unfold create_new_version.
  apply raises_only_bind; [now apply raises_only_http|]. intros r.
  apply raises_only_bind; [apply raises_only_status|]. intros _.
  apply raises_only_bind;
    [apply raises_only_lift; intros e H; eapply P_value, response_json_error, H|].
  intros doc. apply raises_only_bind;
    [apply raises_only_lift; intros e H; eapply P_value, getitem_error, H|].
  intros links. apply raises_only_bind;
    [apply raises_only_lift; intros e H; eapply P_value, getitem_error, H|].
  intros draft. apply raises_only_bind;
    [apply raises_only_lift; intros e H; eapply P_value, split_last_error, H|].
  intros new_id. apply raises_only_bind; [now apply raises_only_http|]. intros r'.
  apply raises_only_bind; [apply raises_only_status|]. intros _.
  apply raises_only_bind;
    [apply raises_only_lift; intros e H; eapply P_value, response_json_error, H|].
  intros doc'. apply raises_only_lift; intros e H; eapply P_value, triple_of_error, H.
Qed.

Lemma raises_only_upload_to_zenodo filename bucket_url file_url filebase token :
  raises_only P (upload_to_zenodo W filename bucket_url file_url filebase token).
Proof.
  unfold upload_to_zenodo. destruct (can_open W filename).
  - apply raises_only_bind; [now apply raises_only_http|]. intros r.
    apply raises_only_status.
  - apply raises_only_raise, P_os.
Qed.

Lemma raises_only_add_meta_data globals v id meta_data token server :
  Py.assoc "filename" globals = Some v ->
  raises_only P (add_meta_data W globals id meta_data token server).
Proof.
  intros Hname. unfold add_meta_data. rewrite Hname.
  apply raises_only_bind; [now apply raises_only_http|]. intros r.
  apply raises_only_status.
Qed.

Lemma raises_only_publish_file id filebase token server :
  raises_only P (publish_file W id filebase token server).
Proof.
  unfold publish_file.
  apply raises_only_bind; [now apply raises_only_http|]. intros r.
  apply raises_only_status.
Qed.

Lemma raises_only_upload_one token meta_data do_publish file :
  raises_only P (upload_one W token meta_data do_publish file).
Proof.
  unfold upload_one. destruct (isfile W (abspath W file)); cbn [negb];
    [|apply raises_only_raise, P_not_found].
  apply raises_only_bind;
    [apply raises_only_lift; intros e H; eapply P_value, search_arguments_error, H|].
  intros [title names].
  apply raises_only_bind; [apply raises_only_search|]. intros [[id b] f].
  destruct (negb (Py.truthy id)).
  - apply raises_only_bind; [apply raises_only_create_new_deposition|].
    intros [[id' b'] f'].
    apply raises_only_bind; [apply raises_only_upload_to_zenodo|]. intros _.
    apply raises_only_bind;
      [apply (raises_only_add_meta_data _ _ _ _ _ _ (loop_globals_filename _ _ _ _ _))|].
    intros _. destruct do_publish; [apply raises_only_publish_file | apply raises_only_ret].
  - apply raises_only_bind; [apply raises_only_create_new_version|].
    intros [[id' b'] f'].
    apply raises_only_bind; [apply raises_only_upload_to_zenodo|]. intros _.
    destruct do_publish; [apply raises_only_publish_file | apply raises_only_ret].
Qed.

End Errors.

Lemma loop_errors (W : World) token meta_data do_publish file tr e :
  fst (upload_one W token meta_data do_publish file tr) = Raise e ->
  is_script_error e = false.
Proof.
  apply (raises_only_upload_one W (fun e => is_script_error e = false)); try reflexivity.
  intros e' H. destruct e'; try discriminate; reflexivity.
Qed.

(** X4: in the loop body the name [filename] is always bound when
    [add_meta_data] runs, and nothing exits: whatever the loop body raises
    for a file, it is neither a [NameError] nor a [SystemExit]. *)
Theorem loop_body_raises_no_script_error (W : World) token meta_data do_publish file tr e :
  fst (upload_one W token meta_data do_publish file tr) = Raise e ->
  (forall name, e <> NameError name) /\ (forall msg, e <> SystemExit msg).
Proof.
  apply (raises_only_upload_one W
           (fun e => (forall name, e <> NameError name)
                     /\ (forall msg, e <> SystemExit msg)));
    try (split; discriminate).
  intros e' He'. destruct e'; try discriminate He'; split; discriminate.
Qed.

(** X2: [main] ends by [SystemExit] only before its loop: when it does, no
    call has been made, and the message is the one about the token or the
    one about the metadata of the configuration file. *)
Theorem main_exits_only_before_loop (W : World) args tr msg :
  fst (main W args tr) = Raise (SystemExit msg) ->
  snd (main W args tr) = tr
  /\ setup W args = None
  /\ (msg = no_token_message \/ msg = metadata_message W args).
Proof.
  destruct (setup W args) as [[token meta_data]|] eqn:Hsetup.
  - rewrite (main_after_setup W _ _ _ _ Hsetup). intros H. exfalso.
    assert (Hno : is_script_error (SystemExit msg) = false); [|discriminate].
    revert H.
    apply (raises_only_for_each (fun e => is_script_error e = false)).
    intros file tr' e'. apply loop_errors.
  - revert Hsetup. unfold setup, main, metadata_message, raise.
    destruct (getenv W "ZENODO_ACCESS_TOKEN") as [t|];
      [|intros _ H; injection H as <-; auto].
    destruct (PyStr.nonempty t); cbn [andb negb fst snd];
      [|intros _ H; injection H as <-; auto].
    destruct (isfile W (abspath W (config_file args))); cbn [andb negb fst snd];
      [|discriminate].
    destruct (can_open W (abspath W (config_file args))); cbn [andb negb fst snd];
      [|discriminate].
    destruct (yaml_safe_load W (abspath W (config_file args))) as [doc|];
      [|intros _ H; injection H as <-; auto].
    destruct (Py.getitem doc "zenodo_metadata") as [m|];
      [discriminate | intros _ H; injection H as <-; auto].
Qed.

(** *** The status checks *)

Lemma snoc_cases {A} (l : list A) : l = [] \/ exists l' x, l = (l' ++ [x])%list.
Proof.
  induction l as [|a l IH]; [now left|]. right.
  destruct IH as [->|(l' & x & ->)]; [now exists [], a | now exists (a :: l'), x].
Qed.

Section StatusChecks.

Variable W : World.

Lemma status_checked_pure {A} (m : M A) :
  (forall tr, snd (m tr) = tr) ->
  (forall tr st, fst (m tr) <> Raise (HTTPError st)) ->
  status_checked W m.
Proof.
  intros Htr Hno tr. exists []. rewrite app_nil_r. split; [apply Htr|]. split.
  - intros st H. now apply Hno in H.
  - intros before o rq r H. now destruct before.
Qed.

Lemma status_checked_ret {A} (a : A) : status_checked W (ret a).
Proof. apply status_checked_pure; [reflexivity | discriminate]. Qed.

Lemma status_checked_lift {A} (r : result A) :
  (forall e, r = Raise e -> is_value_error e = true) -> status_checked W (lift r).
Proof.
  intros Hr. apply status_checked_pure; [reflexivity|].
  intros tr st H. apply Hr in H. discriminate.
Qed.

Lemma status_checked_bind {A B} (m : M A) (k : A -> M B) :
  status_checked W m -> (forall a, status_checked W (k a)) ->
  status_checked W (bind m k).
Proof.
  intros Hm Hk tr. destruct (Hm tr) as (c1 & Htr & Hraised & Hbad).
  unfold bind. destruct (m tr) as [[a|e] tr1]; cbn [fst snd] in *; subst tr1.
  - destruct (Hk a (tr ++ c1)%list) as (c2 & Htr2 & Hraised2 & Hbad2).
    exists (c1 ++ c2)%list. split; [rewrite Htr2; symmetry; apply app_assoc|]. split.
    + intros st H. destruct (Hraised2 st H) as (before & o & rq & r & -> & Ho & Hr & Hst).
      exists (c1 ++ before)%list, o, rq, r.
      rewrite (app_assoc tr c1 before), (app_assoc c1 before). auto.
    + intros before o rq r Hcalls Ho Hr Hst.
      destruct (snoc_cases c2) as [->|(c2' & x & ->)].
      * rewrite app_nil_r in Hcalls. subst c1.
        specialize (Hbad before o rq r eq_refl Ho Hr Hst). discriminate.
      * rewrite app_assoc in Hcalls. apply app_inj_tail in Hcalls as [<- ->].
        apply (Hbad2 c2' o rq r eq_refl Ho); [|exact Hst].
        now rewrite <- app_assoc.
  - exists c1. split; [reflexivity|]. split.
    + intros st H. injection H as ->. now apply Hraised.
    + intros before o rq r Hcalls Ho Hr Hst.
      specialize (Hbad before o rq r Hcalls Ho Hr Hst). injection Hbad as ->. reflexivity.
Qed.

(** A call whose status is checked at once, then more of the same. *)
Lemma status_checked_call {B} (o : op) (rq : request) (k : response -> M B) :
  o <> Search ->
  (forall r, status_checked W (k r)) ->
  status_checked W
    (bind (http W o rq) (fun r => bind (lift (raise_for_status r)) (fun _ => k r))).
Proof.
  intros Ho Hk tr.
  destruct (service W (map snd tr) rq) as [|r0] eqn:Hservice.
  - assert (E : http W o rq tr = (Raise ConnectionError, (tr ++ [(o, rq)])%list))
      by (unfold http; now rewrite Hservice).
    rewrite (bind_raise _ _ _ _ _ E).
    exists [(o, rq)]. cbn [fst snd]. split; [reflexivity|]. split; [discriminate|].
    intros before o' rq' r Hcalls _ Hr _.
    destruct before as [|c [|c' before]]; try discriminate Hcalls.
    injection Hcalls as <- <-. rewrite app_nil_r in Hr. congruence.
  - rewrite (bind_ok _ _ _ _ _ (http_reply W o rq tr r0 Hservice)). cbv beta.
    destruct (raise_for_status r0) as [[]|e] eqn:Hstatus.
    + rewrite (bind_ok _ _ _ tt (tr ++ [(o, rq)])%list)
        by reflexivity.
      destruct (Hk r0 (tr ++ [(o, rq)])%list) as (c & Htr & Hraised & Hbad).
      exists ((o, rq) :: c). split; [rewrite Htr; now rewrite <- app_assoc|]. split.
      * intros st H. destruct (Hraised st H) as (before & o' & rq' & r & -> & Ho' & Hr & Hst).
        exists ((o, rq) :: before), o', rq', r. rewrite <- app_assoc in Hr. auto.
      * intros before o' rq' r Hcalls Ho' Hr Hst.
        destruct (snoc_cases c) as [->|(c' & x & ->)].
        -- destruct before as [|c [|c' before]]; try discriminate Hcalls.
           injection Hcalls as <- <-. rewrite app_nil_r in Hr.
           rewrite Hservice in Hr. injection Hr as <-.
           unfold raise_for_status in Hstatus. destruct Hst as [Hlo Hhi].
           apply Z.leb_le in Hlo. apply Z.ltb_lt in Hhi.
           rewrite Hlo, Hhi in Hstatus. discriminate.
        -- change ((o, rq) :: c' ++ [x])%list with (((o, rq) :: c') ++ [x])%list in Hcalls.
           apply app_inj_tail in Hcalls as [<- ->].
           apply (Hbad c' o' rq' r eq_refl Ho'); [|exact Hst].
           rewrite <- app_assoc. exact Hr.
    + rewrite (bind_raise _ _ _ e (tr ++ [(o, rq)])%list)
        by reflexivity.
      destruct (raise_for_status_raises r0 e Hstatus) as [-> Hst0].
      exists [(o, rq)]. cbn [fst snd]. split; [reflexivity|]. split.
      * intros st H. injection H as <-.
        exists [], o, rq, r0. rewrite app_nil_r. auto.
      * intros before o' rq' r Hcalls _ Hr _.
        destruct before as [|c [|c' before]]; try discriminate Hcalls.
        injection Hcalls as <- <-. rewrite app_nil_r in Hr.
        rewrite Hservice in Hr. now injection Hr as <-.
Qed.

(** The same, for a call that ends a function. *)
Lemma status_checked_last_call (o : op) (rq : request) :
  o <> Search ->
  status_checked W (bind (http W o rq) (fun r => lift (raise_for_status r))).
Proof.
  intros Ho tr.
  destruct (status_checked_call o rq (fun _ => ret tt) Ho
              (fun _ => status_checked_ret tt) tr) as (calls & Htr & Hraised & Hbad).
  assert (Hsame : forall X (f : result unit * list call -> X),
             f (bind (http W o rq) (fun r => lift (raise_for_status r)) tr)
             = f (bind (http W o rq)
                    (fun r => bind (lift (raise_for_status r)) (fun _ => ret tt)) tr)).
  { intros X f. unfold bind, lift, ret, http.
    destruct (service W (map snd tr) rq) as [|r]; [reflexivity|].
    now destruct (raise_for_status r) as [[]|e]. }
  exists calls. rewrite (Hsame _ snd), (Hsame _ fst). auto.
Qed.

(** The search checks no status, and raises no [HTTPError]. *)
Lemma status_checked_search title names server :
  status_checked W
    (search_for_deposition W title None (Some (creator_names names)) server).
Proof.
  intros tr.
  assert (Hno : forall st,
             fst (search_for_deposition W title None (Some (creator_names names)) server tr)
             <> Raise (HTTPError st)).
  { intros st H.
    assert (Hvalue : forall e, is_value_error e = true -> forall st', e <> HTTPError st')
      by (intros e He st' ->; discriminate He).
    assert (Hconnection : forall st', ConnectionError <> HTTPError st') by discriminate.
    exact (raises_only_search W (fun e => forall st', e <> HTTPError st')
             Hvalue Hconnection title names server tr _ H st eq_refl). }
  destruct (runs_search W title None (Some (creator_names names)) server tr)
    as (calls & Htr & [rest Hpre] & _).
  exists calls. split; [exact Htr|]. split.
  - intros st H. now apply Hno in H.
  - intros before o rq r Hcalls Ho _ _. exfalso. subst calls.
    rewrite map_app in Hpre. cbn [map fst] in Hpre.
    destruct before as [|c before]; cbn in Hpre.
    + injection Hpre as Ho' _. congruence.
    + injection Hpre as _ Hnil. now destruct before.
Qed.

Lemma status_checked_raise {A} (e : exn) :
  (forall st, e <> HTTPError st) -> status_checked W (@raise A e).
Proof.
  intros He. apply status_checked_pure; [reflexivity|].
  intros tr st H. injection H as H. now apply He in H.
Qed.

Lemma status_checked_create_new_deposition token server :
  status_checked W (create_new_deposition W token server).
Proof.
  unfold create_new_deposition.
  apply (status_checked_call CreateDeposition _
           (fun r => bind (lift (response_json r)) (fun d => lift (triple_of d))));
    [discriminate|].
  intros r. apply status_checked_bind.
  - apply status_checked_lift, response_json_error.
  - intros d. apply status_checked_lift, triple_of_error.
Qed.

Lemma status_checked_create_new_version id token server :
  status_checked W (create_new_version W id token server).
Proof.
  unfold create_new_version.
  apply (status_checked_call NewVersion _
           (fun r =>
              deposition <- lift (response_json r) ;;
              links <- lift (Py.getitem deposition "links") ;;
              new_deposition_url <- lift (Py.getitem links "latest_draft") ;;
              new_deposition_id <- lift (Py.split_last new_deposition_url "/") ;;
              r <- http W FetchDeposition (fetch_request new_deposition_id token server) ;;
              lift (raise_for_status r) ;;;
              deposition <- lift (response_json r) ;;
              lift (triple_of deposition))); [discriminate|].
  intros r.
  apply status_checked_bind; [apply status_checked_lift, response_json_error|]. intros d.
  apply status_checked_bind; [apply status_checked_lift, getitem_error|]. intros links.
  apply status_checked_bind; [apply status_checked_lift, getitem_error|]. intros draft.
  apply status_checked_bind; [apply status_checked_lift, split_last_error|]. intros new_id.
  apply (status_checked_call FetchDeposition _
           (fun r => bind (lift (response_json r)) (fun d => lift (triple_of d))));
    [discriminate|].
  intros r'. apply status_checked_bind.
  - apply status_checked_lift, response_json_error.
  - intros d'. apply status_checked_lift, triple_of_error.
Qed.

Lemma status_checked_upload_to_zenodo filename bucket_url file_url filebase token :
  status_checked W (upload_to_zenodo W filename bucket_url file_url filebase token).
Proof.
  unfold upload_to_zenodo. destruct (can_open W filename).
  - apply status_checked_last_call. discriminate.
  - apply status_checked_raise. discriminate.
Qed.

Lemma status_checked_add_meta_data globals id meta_data token server :
  status_checked W (add_meta_data W globals id meta_data token server).
Proof.
  unfold add_meta_data. destruct (Py.assoc "filename" globals).
  - apply status_checked_last_call. discriminate.
  - apply status_checked_raise. discriminate.
Qed.

Lemma status_checked_publish_file id filebase token server :
  status_checked W (publish_file W id filebase token server).
Proof. unfold publish_file. apply status_checked_last_call. discriminate. Qed.

Lemma status_checked_upload_one token meta_data do_publish file :
  status_checked W (upload_one W token meta_data do_publish file).
Proof.
  unfold upload_one. destruct (isfile W (abspath W file)); cbn [negb];
    [|apply status_checked_raise; discriminate].
  apply status_checked_bind; [apply status_checked_lift, search_arguments_error|].
  intros [title names].
  apply status_checked_bind; [apply status_checked_search|]. intros [[id b] f].
  destruct (negb (Py.truthy id)).
  - apply status_checked_bind; [apply status_checked_create_new_deposition|].
    intros [[id' b'] f'].
    apply status_checked_bind; [apply status_checked_upload_to_zenodo|]. intros _.
    apply status_checked_bind; [apply status_checked_add_meta_data|]. intros _.
    destruct do_publish; [apply status_checked_publish_file | apply status_checked_ret].
  - apply status_checked_bind; [apply status_checked_create_new_version|].
    intros [[id' b'] f'].
    apply status_checked_bind; [apply status_checked_upload_to_zenodo|]. intros _.
    destruct do_publish; [apply status_checked_publish_file | apply status_checked_ret].
Qed.

End StatusChecks.

(** X5: in the loop body an [HTTPError] is raised exactly when the call
    made last for the file, a call other than the search, was answered
    with a status from 400 to 599: the error carries that status, and no
    call follows the refused one. *)
Theorem loop_body_checks_status (W : World) token meta_data do_publish file tr :
  exists calls,
    snd (upload_one W token meta_data do_publish file tr) = (tr ++ calls)%list
    /\ (forall st,
          fst (upload_one W token meta_data do_publish file tr) = Raise (HTTPError st) ->
          exists before o rq r,
            calls = (before ++ [(o, rq)])%list /\ o <> Search
            /\ service W (map snd (tr ++ before)) rq = Reply r
            /\ status_code r = st /\ (400 <= st < 600)%Z)
    /\ (forall before o rq r,
          calls = (before ++ [(o, rq)])%list -> o <> Search ->
          service W (map snd (tr ++ before)) rq = Reply r ->
          (400 <= status_code r < 600)%Z ->
          fst (upload_one W token meta_data do_publish file tr)
          = Raise (HTTPError (status_code r))).
Proof.
  destruct (status_checked_upload_one W token meta_data do_publish file tr)
    as (calls & Htr & Hraised & Hbad).
  exists calls. split; [exact Htr|]. split; [|exact Hbad].
  intros st H. destruct (Hraised st H) as (before & o & rq & r & Hc & Ho & Hr & Hst & Hb).
  exists before, o, rq, r. unfold bad_status in Hb. rewrite Hst in Hb. auto.
Qed.

(** *** The calls on the wire *)

Lemma appends_pure {A} (P : call -> Prop) (m : M A) :
  (forall tr, snd (m tr) = tr) -> appends P m.
Proof. intros H tr. exists []. rewrite app_nil_r. split; [apply H | constructor]. Qed.

Lemma appends_bind {A B} (P : call -> Prop) (m : M A) (k : A -> M B) :
  appends P m -> (forall a, appends P (k a)) -> appends P (bind m k).
Proof.
  intros Hm Hk tr. destruct (Hm tr) as (c1 & Htr & Hall).
  unfold bind. destruct (m tr) as [[a|e] tr1]; cbn [snd] in *; subst tr1.
  - destruct (Hk a (tr ++ c1)%list) as (c2 & Htr2 & Hall2).
    exists (c1 ++ c2)%list. split; [rewrite Htr2; symmetry; apply app_assoc|].
    apply Forall_app. now split.
  - now exists c1.
Qed.

Lemma appends_for_each {A} (P : call -> Prop) (f : A -> M unit) (l : list A) :
  (forall x, appends P (f x)) -> appends P (for_each f l).
Proof.
  intros Hf. induction l as [|x l IH]; cbn [for_each].
  - now apply appends_pure.
  - apply appends_bind; [apply Hf | intros _; exact IH].
Qed.

Section Wire.

Variable W : World.
Variable token : string.

Lemma appends_http o rq :
  call_shape token (o, rq) -> appends (call_shape token) (http W o rq).
Proof.
  intros Hshape tr. exists [(o, rq)]. unfold http.
  destruct (service W (map snd tr) rq); (split; [reflexivity | now constructor]).
Qed.

Lemma appends_tail {A B} (r : result A) (k : A -> M B) :
  (forall a, appends (call_shape token) (k a)) ->
  appends (call_shape token) (bind (lift r) k).
Proof. intros Hk. apply appends_bind; [now apply appends_pure | exact Hk]. Qed.

Lemma appends_search title owner creators :
  appends (call_shape token) (search_for_deposition W title owner creators default_server).
Proof.
  unfold search_for_deposition. apply appends_tail. intros q.
  apply appends_bind.
  - apply appends_http. repeat split.
  - intros r. apply appends_tail; intros doc. apply appends_tail; intros hits.
    apply appends_tail; intros hits'. apply appends_tail.
    intros [|deposition records]; now apply appends_pure.
Qed.

Lemma appends_create_new_deposition :
  appends (call_shape token) (create_new_deposition W token default_server).
Proof.
  unfold create_new_deposition. apply appends_bind.
  - apply appends_http. repeat split.
  - intros r. repeat (apply appends_tail; intros ?). now apply appends_pure.
Qed.

Lemma appends_create_new_version id :
  appends (call_shape token) (create_new_version W id token default_server).
Proof.
  unfold create_new_version. apply appends_bind.
  - apply appends_http. repeat split.
  - intros r. repeat (apply appends_tail; intros ?). apply appends_bind.
    + apply appends_http. repeat split.
    + intros r'. repeat (apply appends_tail; intros ?). now apply appends_pure.
Qed.

Lemma appends_upload_to_zenodo filename bucket_url file_url filebase :
  appends (call_shape token) (upload_to_zenodo W filename bucket_url file_url filebase token).
Proof.
  unfold upload_to_zenodo. destruct (can_open W filename); [|now apply appends_pure].
  apply appends_bind.
  - apply appends_http. repeat split.
  - intros r. now apply appends_pure.
Qed.

Lemma appends_add_meta_data globals id meta_data :
  appends (call_shape token) (add_meta_data W globals id meta_data token default_server).
Proof.
  unfold add_meta_data. destruct (Py.assoc "filename" globals); [|now apply appends_pure].
  apply appends_bind.
  - apply appends_http. repeat split.
  - intros r. now apply appends_pure.
Qed.

Lemma appends_publish_file id filebase :
  appends (call_shape token) (publish_file W id filebase token default_server).
Proof.
  unfold publish_file. apply appends_bind.
  - apply appends_http. repeat split.
  - intros r. now apply appends_pure.
Qed.

Lemma appends_upload_one meta_data do_publish file :
  appends (call_shape token) (upload_one W token meta_data do_publish file).
Proof.
  unfold upload_one. destruct (isfile W (abspath W file)); cbn [negb];
    [|now apply appends_pure].
  apply appends_tail. intros [title names].
  apply appends_bind; [apply appends_search|]. intros [[id b] f].
  destruct (negb (Py.truthy id)).
  - apply appends_bind; [apply appends_create_new_deposition|]. intros [[id' b'] f'].
    apply appends_bind; [apply appends_upload_to_zenodo|]. intros _.
    apply appends_bind; [apply appends_add_meta_data|]. intros _.
    destruct do_publish; [apply appends_publish_file | now apply appends_pure].
  - apply appends_bind; [apply appends_create_new_version|]. intros [[id' b'] f'].
    apply appends_bind; [apply appends_upload_to_zenodo|]. intros _.
    destruct do_publish; [apply appends_publish_file | now apply appends_pure].
Qed.

End Wire.

(** X6: [main] only adds calls to those made before, and each call it adds
    has the method of its operation (GET for search and fetch, POST for
    create, new version and publish, PUT for upload and metadata), carries
    the token of the environment as its only parameter [access_token], the
    search carrying none, and, the upload apart, goes to a URL that starts
    with the sandbox server. *)
Theorem main_calls_shape (W : World) args tr token :
  getenv W "ZENODO_ACCESS_TOKEN" = Some token ->
  exists calls,
    snd (main W args tr) = (tr ++ calls)%list /\ Forall (call_shape token) calls.
Proof.
  intros Htoken. revert tr. change (appends (call_shape token) (main W args)).
  unfold main. rewrite Htoken.
  destruct (negb (PyStr.nonempty token)); [now apply appends_pure|].
  destruct (negb (isfile W (abspath W (config_file args)))); [now apply appends_pure|].
  destruct (negb (can_open W (abspath W (config_file args)))); [now apply appends_pure|].
  destruct (match yaml_safe_load W (abspath W (config_file args)) with
            | Some doc => Py.getitem doc "zenodo_metadata"
            | None => Raise TypeError
            end) as [meta_data|e]; [|now apply appends_pure].
  apply appends_for_each. intros file. apply appends_upload_one.
Qed.

(** X7: whatever the answers, the calls the loop body makes for one file
    are an initial part of one of its two sequences, search, new version,
    fetch, upload, publish or search, create, upload, metadata, publish:
    at most five calls, and no publish call without [-p]. *)
Theorem loop_body_two_paths (W : World) token meta_data do_publish file tr :
  exists calls,
    snd (upload_one W token meta_data do_publish file tr) = (tr ++ calls)%list
    /\ (prefix_of (map fst calls) (version_path do_publish)
        \/ prefix_of (map fst calls) (deposition_path do_publish))
    /\ List.length calls <= 5
    /\ (do_publish = false -> ~ In Publish (map fst calls)).
Proof.
  assert (Hgoal : exists calls,
             snd (upload_one W token meta_data do_publish file tr) = (tr ++ calls)%list
             /\ (prefix_of (map fst calls) (version_path do_publish)
                 \/ prefix_of (map fst calls) (deposition_path do_publish))).
  { destruct (isfile W (abspath W file)) eqn:Hfile.
    2:{ exists []. unfold upload_one. rewrite Hfile, app_nil_r.
        split; [reflexivity | left; apply prefix_of_nil]. }
    destruct (search_arguments meta_data) as [[title names]|e] eqn:Hargs.
    2:{ exists []. unfold upload_one. rewrite Hfile, app_nil_r. cbn [negb].
        rewrite (bind_raise _ _ tr e tr) by (unfold lift; now rewrite Hargs).
        split; [reflexivity | left; apply prefix_of_nil]. }
    destruct (search_for_deposition W title None (Some (creator_names names))
                default_server tr) as [[[[id b] f]|e] tr1] eqn:Hsearch.
    - destruct (search_ok_trace W _ _ _ _ _ _ _ Hsearch) as (q & _ & ->).
      destruct (Py.truthy id) eqn:Hid.
      + destruct (version_path_after_search W token meta_data do_publish file tr _ _ _ _ _ _
                    Hfile Hargs Hsearch Hid) as (rest & Htr & Hpre & _).
        exists ((Search, search_request default_server q)
                :: (NewVersion, newversion_request W id token default_server) :: rest).
        rewrite Htr, <- app_assoc. split; [reflexivity|]. left.
        apply prefix_of_cons, prefix_of_cons, Hpre.
      + destruct (deposition_path_after_search W token meta_data do_publish file tr _ _ _ _ _ _
                    Hfile Hargs Hsearch Hid) as (rest & Htr & Hpre & _).
        exists ((Search, search_request default_server q)
                :: (CreateDeposition, create_request token default_server) :: rest).
        rewrite Htr, <- app_assoc. split; [reflexivity|]. right.
        apply prefix_of_cons, prefix_of_cons, Hpre.
    - destruct (runs_search W title None (Some (creator_names names)) default_server tr)
        as (calls & Htr & Hpre & _).
      rewrite Hsearch in Htr. cbn [snd] in Htr. subst tr1.
      exists calls. unfold upload_one. rewrite Hfile. cbn [negb].
      rewrite (bind_ok _ _ tr (title, names) tr) by (unfold lift; now rewrite Hargs).
      rewrite (bind_raise _ _ _ _ _ Hsearch).
      split; [reflexivity|]. left.
      exact (prefix_of_weaken _ [Search]
               ([NewVersion; FetchDeposition; UploadFile]
                ++ (if do_publish then [Publish] else [])) Hpre). }
  destruct Hgoal as (calls & Htr & Hpaths). exists calls.
  split; [exact Htr|]. split; [exact Hpaths|]. split.
  - apply Nat.le_trans with (List.length (map fst calls));
      [apply Nat.eq_le_incl; symmetry; apply length_map|].
    destruct Hpaths as [[rest H]|[rest H]];
      apply (f_equal (@List.length op)) in H; rewrite length_app in H;
      destruct do_publish; cbn in H; lia.
  - intros -> Hin.
    destruct Hpaths as [H|H]; apply (prefix_of_In _ _ _ H) in Hin; cbn in Hin;
      intuition discriminate.
Qed.

(** *** The two paths, call by call *)

Section Runs.

Variable W : World.

Lemma upload_to_zenodo_ok filename bucket_url file_url filebase token tr r :
  can_open W filename = true ->
  service W (map snd tr) (upload_request W filename bucket_url filebase token) = Reply r ->
  raise_for_status r = Ok tt ->
  upload_to_zenodo W filename bucket_url file_url filebase token tr
  = (Ok tt, (tr ++ [(UploadFile, upload_request W filename bucket_url filebase token)])%list).
Proof.
  intros Hopen Hr Hst. unfold upload_to_zenodo. rewrite Hopen.
  rewrite (bind_ok _ _ _ _ _ (http_reply W _ _ tr r Hr)).
  unfold lift. now rewrite Hst.
Qed.

Lemma add_meta_data_ok globals v id meta_data token server tr r :
  Py.assoc "filename" globals = Some v ->
  service W (map snd tr) (metadata_request W id meta_data token server) = Reply r ->
  raise_for_status r = Ok tt ->
  add_meta_data W globals id meta_data token server tr
  = (Ok tt, (tr ++ [(AttachMetadata, metadata_request W id meta_data token server)])%list).
Proof.
  intros Hname Hr Hst. unfold add_meta_data. rewrite Hname.
  rewrite (bind_ok _ _ _ _ _ (http_reply W _ _ tr r Hr)).
  unfold lift. now rewrite Hst.
Qed.

(** X8: on the path of a new deposition the file is put into the bucket
    of the deposition just created, under its base name, the whole
    metadata document is then put to that deposition, and only then, with
    [-p], that deposition is published; what the search returned beside
    the id plays no part. *)
Theorem new_deposition_run token meta_data do_publish file tr title names
        id0 bucket0 record0 tr1 id bucket record tr2 r2 r3 :
  let filebase := basename (abspath W file) in
  let upload := upload_request W file bucket filebase token in
  let attach := metadata_request W id meta_data token default_server in
  isfile W (abspath W file) = true ->
  search_arguments meta_data = Ok (title, names) ->
  search_for_deposition W title None (Some (creator_names names)) default_server tr
    = (Ok (id0, bucket0, record0), tr1) ->
  Py.truthy id0 = false ->
  create_new_deposition W token default_server tr1 = (Ok (id, bucket, record), tr2) ->
  can_open W file = true ->
  service W (map snd tr2) upload = Reply r2 ->
  raise_for_status r2 = Ok tt ->
  service W (map snd (tr2 ++ [(UploadFile, upload)])) attach = Reply r3 ->
  raise_for_status r3 = Ok tt ->
  upload_one W token meta_data do_publish file tr
  = (if do_publish then publish_file W id filebase token default_server else ret tt)
      (tr2 ++ [(UploadFile, upload); (AttachMetadata, attach)])%list.
Proof.
  intros filebase upload attach Hfile Hargs Hsearch Hid Hcreate Hopen Hr2 Hs2 Hr3 Hs3.
  rewrite (upload_one_after_search W _ _ _ _ _ _ _ _ _ _ _ Hfile Hargs Hsearch), Hid.
  cbn [negb]. rewrite (bind_ok _ _ _ _ _ Hcreate). cbv beta iota.
  rewrite (bind_ok _ _ _ _ _ (upload_to_zenodo_ok _ _ _ _ _ _ _ Hopen Hr2 Hs2)).
  rewrite (bind_ok _ _ _ _ _
             (add_meta_data_ok _ _ _ _ _ _ _ _ (loop_globals_filename _ _ _ _ _) Hr3 Hs3)).
  now rewrite <- app_assoc.
Qed.

(** X9: on the path of a new version the file is put into the bucket of
    the new draft, the one [create_new_version] returned, not into the
    bucket the search returned, and with [-p] it is the new draft that is
    published; nothing is sent between the upload and the publish. *)
Theorem new_version_run token meta_data do_publish file tr title names
        id0 bucket0 record0 tr1 id bucket record tr2 r2 :
  let filebase := basename (abspath W file) in
  let upload := upload_request W file bucket filebase token in
  isfile W (abspath W file) = true ->
  search_arguments meta_data = Ok (title, names) ->
  search_for_deposition W title None (Some (creator_names names)) default_server tr
    = (Ok (id0, bucket0, record0), tr1) ->
  Py.truthy id0 = true ->
  create_new_version W id0 token default_server tr1 = (Ok (id, bucket, record), tr2) ->
  can_open W file = true ->
  service W (map snd tr2) upload = Reply r2 ->
  raise_for_status r2 = Ok tt ->
  upload_one W token meta_data do_publish file tr
  = (if do_publish then publish_file W id filebase token default_server else ret tt)
      (tr2 ++ [(UploadFile, upload)])%list.
Proof.
  intros filebase upload Hfile Hargs Hsearch Hid Hcreate Hopen Hr2 Hs2.
  rewrite (upload_one_after_search W _ _ _ _ _ _ _ _ _ _ _ Hfile Hargs Hsearch), Hid.
  cbn [negb]. rewrite (bind_ok _ _ _ _ _ Hcreate). cbv beta iota.
  now rewrite (bind_ok _ _ _ _ _ (upload_to_zenodo_ok _ _ _ _ _ _ _ Hopen Hr2 Hs2)).
Qed.

(** X10: that the file can be opened is found out only after the draft
    was made: for a file that exists but cannot be opened, once the new
    deposition or the new version was created the loop body raises
    [OSError] for the path as given, and the calls that created the draft
    stay made. *)
Theorem unreadable_file_leaves_draft token meta_data do_publish file tr title names
        id0 bucket0 record0 tr1 triple tr2 :
  isfile W (abspath W file) = true ->
  can_open W file = false ->
  search_arguments meta_data = Ok (title, names) ->
  search_for_deposition W title None (Some (creator_names names)) default_server tr
    = (Ok (id0, bucket0, record0), tr1) ->
  (if Py.truthy id0 then create_new_version W id0 token default_server
   else create_new_deposition W token default_server) tr1 = (Ok triple, tr2) ->
  upload_one W token meta_data do_publish file tr = (Raise (OSError file), tr2)
  /\ exists made,
       tr2 = (tr1 ++ made)%list
       /\ map fst made = if Py.truthy id0 then [NewVersion; FetchDeposition]
                         else [CreateDeposition].
Proof.
  intros Hfile Hopen Hargs Hsearch Hcreate. split.
  - rewrite (upload_one_after_search W _ _ _ _ _ _ _ _ _ _ _ Hfile Hargs Hsearch).
    destruct triple as [[id bucket] record].
    destruct (Py.truthy id0); cbn [negb]; rewrite (bind_ok _ _ _ _ _ Hcreate); cbv beta iota;
      apply bind_raise; unfold upload_to_zenodo; now rewrite Hopen.
  - destruct (Py.truthy id0).
    + destruct (runs_create_new_version W id0 token default_server tr1)
        as (made & Htr & _ & Hfull).
      rewrite Hcreate in Htr, Hfull. exists made. split; [exact Htr | now apply Hfull].
    + destruct (runs_create_new_deposition W token default_server tr1)
        as (made & Htr & _ & Hfull).
      rewrite Hcreate in Htr, Hfull. exists made. split; [exact Htr | now apply Hfull].
Qed.

End Runs.

(** *** The search, its query and its failures *)

Lemma rmap_names_stop (before after : list json) (c : json) (k : string) (e : exn) :
  Forall (fun x => exists v, Py.getitem x k = Ok v) before ->
  Py.getitem c k = Raise e ->
  rmap (fun r : result json => r) (map (fun x => Py.getitem x k) (before ++ c :: after))
  = Raise e.
Proof.
  intros Hbefore Hc. induction Hbefore as [|x before [v Hx] _ IH]; cbn [app map rmap].
  - now rewrite Hc.
  - rewrite Hx. cbn [rbind]. now rewrite IH.
Qed.

Lemma last_split_no_sep (sep : ascii) (s : string) :
  PyStr.mem sep (last (PyStr.split sep s) EmptyString) = false.
Proof.
  induction s as [|c s IH]; [reflexivity|].
  cbn [PyStr.split]. destruct (Ascii.eqb c sep) eqn:E.
  - rewrite last_cons_not_nil by apply split_not_nil. exact IH.
  - destruct (PyStr.split sep s) as [|w [|w' ws]] eqn:Hsplit.
    + now apply split_not_nil in Hsplit.
    + cbn [last PyStr.mem] in *. rewrite IH, (Ascii.eqb_sym sep c), E. reflexivity.
    + exact IH.
Qed.

Lemma split_singleton (sep : ascii) (s w : string) : PyStr.split sep s = [w] -> s = w.
Proof.
  revert w. induction s as [|c s IH]; intros w; cbn [PyStr.split].
  - intros H. now injection H.
  - destruct (Ascii.eqb c sep).
    + intros H. injection H as _ H. now apply split_not_nil in H.
    + destruct (PyStr.split sep s) as [|v vs] eqn:Hs; intros H.
      * now apply split_not_nil in Hs.
      * injection H as <- ->. now rewrite (IH v eq_refl).
Qed.

(** The last piece of a split is the whole text, or what comes after a
    separator at the end of it. *)
Lemma last_split_follows (sep : ascii) (s : string) :
  s = last (PyStr.split sep s) EmptyString
  \/ exists before, s = before ++ String sep (last (PyStr.split sep s) EmptyString).
Proof.
  induction s as [|c s IH]; [now left|].
  cbn [PyStr.split]. destruct (Ascii.eqb c sep) eqn:E.
  - apply Ascii.eqb_eq in E. subst c.
    rewrite last_cons_not_nil by apply split_not_nil. right.
    destruct IH as [IH|[before IH]].
    + exists EmptyString. cbn. now rewrite <- IH.
    + exists (String sep before). cbn. now rewrite <- IH.
  - destruct (PyStr.split sep s) as [|w [|w' ws]] eqn:Hsplit.
    + now apply split_not_nil in Hsplit.
    + left. cbn [last]. now rewrite (split_singleton _ _ _ Hsplit).
    + right.
      change (last (String c w :: w' :: ws) EmptyString)
        with (last (w :: w' :: ws) EmptyString).
      destruct IH as [IH|[before IH]].
      * exfalso. pose proof (last_split_no_sep sep s) as Hno.
        rewrite Hsplit in Hno. rewrite <- IH in Hno.
        rewrite (split_no_sep _ _ Hno) in Hsplit. discriminate Hsplit.
      * exists (String c before). cbn [append]. now rewrite <- IH.
Qed.

Lemma triple_of_inv deposition id bucket record :
  triple_of deposition = Ok (id, bucket, record) ->
  exists links html,
    Py.getitem deposition "id" = Ok id
    /\ Py.getitem deposition "links" = Ok links
    /\ Py.getitem links "bucket" = Ok bucket
    /\ Py.getitem links "html" = Ok (JStr html)
    /\ record = JStr (PyStr.replace "deposit" "record" html).
Proof.
  unfold triple_of.
  destruct (Py.getitem deposition "id") as [i|]; [|discriminate].
  destruct (Py.getitem deposition "links") as [links|]; [|discriminate]. cbn [rbind].
  destruct (Py.getitem links "bucket") as [b|] eqn:Hb; [|discriminate]. cbn [rbind].
  destruct (Py.getitem links "html") as [h|] eqn:Hh; [|discriminate]. cbn [rbind].
  destruct h; cbn [Py.replace rbind]; try discriminate.
  intros H. injection H as <- <- <-. exists links, s. repeat split; assumption.
Qed.

Section SearchFacts.

Variable W : World.

(** X11: a generator always counts as true, a list only when it is not
    empty: with no creator in the metadata the loop body, which passes a
    generator, still adds the clause metadata.creators.name: with an
    empty pair of quotes, while an empty list, like no creators at all,
    leaves the clause out. *)
Theorem empty_creators_query (title : json) :
  let titled := "metadata.title:" ++ dquote ++ fmt W title ++ dquote in
  search_query W title None (Some (creator_names []))
  = Ok (map_char "/" " " (titled ++ " metadata.creators.name:" ++ dquote ++ dquote))
  /\ search_query W title None (Some (Py.PyList [])) = Ok (map_char "/" " " titled)
  /\ search_query W title None None = Ok (map_char "/" " " titled).
Proof.
  cbv zeta. unfold search_query, creator_names.
  cbn [map Py.iterable_truthy Py.join Py.consume rmap rbind Py.as_str PyStr.join].
  rewrite !replace_one_char. repeat split.
Qed.

(** X12: whatever the title, the owner and the creators, a query that is
    built holds no '/'. *)
Theorem query_has_no_slash title owner creators q :
  search_query W title owner creators = Ok q -> PyStr.mem "/" q = false.
Proof.
  unfold search_query.
  match goal with |- rbind ?r _ = _ -> _ => destruct r as [s|e] end; [|discriminate].
  cbn [rbind]. intros H. injection H as <-.
  change (PyStr.mem "/" (PyStr.replace "/" " " s) = false).
  rewrite replace_one_char. apply mem_map_char. discriminate.
Qed.

(** X13: an entry of [creators] that has no name, or is not a mapping,
    makes the search raise the error of that look-up while the query is
    built: no request is sent. *)
Theorem bad_creator_stops_search title owner server tr before c after e :
  Forall (fun x => exists v, Py.getitem x "name" = Ok v) before ->
  Py.getitem c "name" = Raise e ->
  search_for_deposition W title owner (Some (creator_names (before ++ c :: after))) server tr
  = (Raise e, tr).
Proof.
  intros Hbefore Hc. unfold search_for_deposition. apply bind_raise.
  unfold lift, search_query, creator_names, Py.join.
  cbn [Py.iterable_truthy Py.consume].
  rewrite (rmap_names_stop _ _ _ _ _ Hbefore Hc). reflexivity.
Qed.

(** X14: when the service answers the search request, whatever the status
    of the answer, the search has made that one call and no other, and it
    can fail only on decoding the answer or looking into it
    ([JSONDecodeError], [KeyError], [TypeError], [AttributeError]): never
    by an [HTTPError]. *)
Theorem search_failures title owner creators server tr q r :
  search_query W title owner creators = Ok q ->
  service W (map snd tr) (search_request server q) = Reply r ->
  snd (search_for_deposition W title owner creators server tr)
  = (tr ++ [(Search, search_request server q)])%list
  /\ (forall e,
        fst (search_for_deposition W title owner creators server tr) = Raise e ->
        is_value_error e = true)
  /\ (forall st,
        fst (search_for_deposition W title owner creators server tr)
        <> Raise (HTTPError st)).
Proof.
  intros Hq Hr.
  assert (Hgoal :
            snd (search_for_deposition W title owner creators server tr)
            = (tr ++ [(Search, search_request server q)])%list
            /\ (forall e,
                  fst (search_for_deposition W title owner creators server tr) = Raise e ->
                  is_value_error e = true)).
  { unfold search_for_deposition.
    rewrite (bind_ok _ _ tr q tr) by (unfold lift; now rewrite Hq).
    rewrite (bind_ok _ _ _ _ _ (http_reply W Search _ tr r Hr)).
    unfold bind, lift.
    destruct (response_json r) as [doc|e0] eqn:Hdoc.
    2:{ split; [reflexivity|]. intros e H. injection H as <-.
        exact (response_json_error _ _ Hdoc). }
    destruct (Py.getitem doc "hits") as [hits|e0] eqn:Hhits.
    2:{ split; [reflexivity|]. intros e H. injection H as <-.
        exact (getitem_error _ _ _ Hhits). }
    destruct (Py.getitem hits "hits") as [hits'|e0] eqn:Hhits'.
    2:{ split; [reflexivity|]. intros e H. injection H as <-.
        exact (getitem_error _ _ _ Hhits'). }
    destruct (Py.iter hits') as [[|d records]|e0] eqn:Hiter.
    - split; [reflexivity | discriminate].
    - split; [reflexivity|]. intros e H. exact (triple_of_error _ _ H).
    - split; [reflexivity|]. intros e H. injection H as <-.
      exact (iter_error _ _ Hiter). }
  destruct Hgoal as [Htr Herr]. split; [exact Htr|]. split; [exact Herr|].
  intros st H. apply Herr in H. discriminate H.
Qed.

(** X15: the name under which a file is uploaded and the id taken from a
    [latest_draft] link are each what follows the last '/' of their text:
    a piece that holds no '/', and that is the whole text or comes right
    after a '/' at the end of it. *)
Theorem last_segment_has_no_slash (path : string) :
  (PyStr.mem "/" (basename path) = false
   /\ (path = basename path
       \/ exists before, path = before ++ String "/" (basename path)))
  /\ exists segment,
       Py.split_last (JStr path) "/" = Ok segment
       /\ PyStr.mem "/" segment = false
       /\ (path = segment \/ exists before, path = before ++ String "/" segment).
Proof.
  assert (H : PyStr.mem "/" (last (PyStr.split "/" path) EmptyString) = false
              /\ (path = last (PyStr.split "/" path) EmptyString
                  \/ exists before,
                       path = before ++ String "/" (last (PyStr.split "/" path) EmptyString)))
    by (split; [apply last_split_no_sep | apply last_split_follows]).
  split; [exact H|].
  exists (last (PyStr.split "/" path) EmptyString). split; [reflexivity | exact H].
Qed.

(** X16: when [create_new_deposition] returns, it has sent one POST of an
    empty JSON object to <server>deposit/depositions, the answer had no
    status from 400 to 599 and decoded to a document, and what is returned
    are that document's id, bucket link and html link, "deposit" replaced
    by "record". *)
Theorem create_new_deposition_returns token server tr id bucket record tr' :
  create_new_deposition W token server tr = (Ok (id, bucket, record), tr') ->
  exists r doc links html,
    tr' = (tr ++ [(CreateDeposition,
                   Request POST (server ++ "deposit/depositions") [("access_token", token)]
                     (JsonBody (JObj [])) [("Content-Type", "application/json")])])%list
    /\ service W (map snd tr) (create_request token server) = Reply r
    /\ ~ bad_status r
    /\ content r = Some doc
    /\ Py.getitem doc "id" = Ok id
    /\ Py.getitem doc "links" = Ok links
    /\ Py.getitem links "bucket" = Ok bucket
    /\ Py.getitem links "html" = Ok (JStr html)
    /\ record = JStr (PyStr.replace "deposit" "record" html).
Proof.
  unfold create_new_deposition, bind, lift, http.
  destruct (service W (map snd tr) (create_request token server)) as [|r]; [discriminate|].
  destruct (raise_for_status r) as [[]|e] eqn:Hstatus; [|discriminate].
  unfold response_json. destruct (content r) as [doc|] eqn:Hdoc; [|discriminate].
  destruct (triple_of doc) as [[[i b] rec]|] eqn:Htriple; [|discriminate].
  intros H. injection H as <- <- <- <-.
  destruct (triple_of_inv _ _ _ _ Htriple) as (links & html & Hid & Hlinks & Hb & Hh & Hrec).
  exists r, doc, links, html. repeat split; try assumption.
  intros Hbad. rewrite (raise_for_status_error r Hbad) in Hstatus. discriminate.
Qed.

End SearchFacts.

(** ** Concrete runs of the whole script *)

Lemma main_stops_before_any_call_witness :
  main no_token_world sample_arguments [] = (Raise (SystemExit no_token_message), [])
  /\ main no_config_world sample_arguments []
     = (Raise (FileNotFoundError "/data/zenodo.yml"), [])
  /\ main locked_config_world sample_arguments [] = (Raise (OSError "/data/zenodo.yml"), [])
  /\ main bad_config_world sample_arguments []
     = (Raise (SystemExit "Please add metadata to the config file: /data/zenodo.yml"), []).
Proof.
  split; [|split; [|split]].
  - exact (proj1 (main_stops_before_any_call no_token_world sample_arguments []) eq_refl).
  - exact (proj1 (proj2 (main_stops_before_any_call no_config_world sample_arguments []))
             eq_refl eq_refl).
  - exact (proj1 (proj2 (proj2
             (main_stops_before_any_call locked_config_world sample_arguments [])))
             eq_refl eq_refl eq_refl).
  - exact (proj2 (proj2 (proj2
             (main_stops_before_any_call bad_config_world sample_arguments [])))
             eq_refl eq_refl eq_refl eq_refl).
Defined.

Lemma main_exits_only_before_loop_witness :
  fst (main bad_config_world sample_arguments [])
  = Raise (SystemExit "Please add metadata to the config file: /data/zenodo.yml")
  /\ snd (main bad_config_world sample_arguments []) = []
  /\ setup bad_config_world sample_arguments = None.
Proof.
  split; [reflexivity|].
  destruct (main_exits_only_before_loop bad_config_world sample_arguments []
              "Please add metadata to the config file: /data/zenodo.yml" eq_refl)
    as (Htr & Hsetup & _).
  split; [exact Htr | exact Hsetup].
Defined.

Lemma main_stops_at_first_failure_witness :
  main batch_world sample_arguments []
  = (Raise (FileNotFoundError "/data/b.txt"),
     [(Search, search_request default_server sample_query);
      (CreateDeposition, create_request "s3cret" default_server);
      (UploadFile,
       upload_request batch_world "a.txt" (JStr "https://sandbox.zenodo.org/api/files/b43")
         "a.txt" "s3cret");
      (AttachMetadata,
       metadata_request batch_world (JNum 43) sample_meta_data "s3cret" default_server)]).
Proof.
  exact (main_stops_at_first_failure batch_world sample_arguments "s3cret" sample_meta_data
           ["a.txt"] "b.txt" ["c.txt"] [] _ _ _ eq_refl eq_refl eq_refl eq_refl).
Defined.

Lemma loop_body_raises_no_script_error_witness :
  fst (upload_one refused_upload_world "s3cret" sample_meta_data false "a.txt" [])
  = Raise (HTTPError 403)
  /\ (forall name, HTTPError 403 <> NameError name)
  /\ (forall msg, HTTPError 403 <> SystemExit msg).
Proof.
  split; [reflexivity|].
  exact (loop_body_raises_no_script_error refused_upload_world "s3cret"
           sample_meta_data false "a.txt" [] (HTTPError 403) eq_refl).
Defined.

Lemma loop_body_checks_status_witness :
  fst (upload_one refused_upload_world "s3cret" sample_meta_data false "a.txt" [])
  = Raise (HTTPError 403).
Proof.
  destruct (loop_body_checks_status refused_upload_world "s3cret" sample_meta_data false
              "a.txt" []) as (calls & Htr & _ & Hbad).
  cbn [app] in Htr. subst calls.
  apply (Hbad [(Search, search_request default_server sample_query);
               (CreateDeposition, create_request "s3cret" default_server)]
              UploadFile
              (upload_request refused_upload_world "a.txt"
                 (JStr "https://sandbox.zenodo.org/api/files/b43") "a.txt" "s3cret")
              (Response 403 (Some JNull)));
    [reflexivity | discriminate | reflexivity | cbn; lia].
Defined.

Lemma main_calls_shape_witness :
  exists calls,
    snd (main batch_world sample_arguments []) = calls
    /\ Forall (call_shape "s3cret") calls
    /\ List.length calls = 4.
Proof.
  destruct (main_calls_shape batch_world sample_arguments [] "s3cret" eq_refl)
    as (calls & Htr & Hall).
  exists calls. cbn [app] in Htr. split; [exact Htr|]. split; [exact Hall|].
  now rewrite <- Htr.
Defined.

Lemma new_deposition_run_witness :
  upload_one no_hit_world "s3cret" sample_meta_data true "a.txt" []
  = publish_file no_hit_world (JNum 43) "a.txt" "s3cret" default_server
      [(Search, search_request default_server sample_query);
       (CreateDeposition, create_request "s3cret" default_server);
       (UploadFile,
        upload_request no_hit_world "a.txt" (JStr "https://sandbox.zenodo.org/api/files/b43")
          "a.txt" "s3cret");
       (AttachMetadata,
        metadata_request no_hit_world (JNum 43) sample_meta_data "s3cret" default_server)].
Proof.
  exact (new_deposition_run no_hit_world "s3cret" sample_meta_data true "a.txt" []
           (JStr "Sample Dataset") sample_creators JNull JNull JNull
           [(Search, search_request default_server sample_query)]
           (JNum 43) (JStr "https://sandbox.zenodo.org/api/files/b43")
           (JStr "https://sandbox.zenodo.org/record/43")
           [(Search, search_request default_server sample_query);
            (CreateDeposition, create_request "s3cret" default_server)]
           (Response 200 (Some JNull)) (Response 200 (Some JNull))
           eq_refl eq_refl eq_refl eq_refl eq_refl eq_refl eq_refl eq_refl eq_refl eq_refl).
Defined.

Lemma new_version_run_witness :
  upload_one one_hit_world "s3cret" sample_meta_data true "a.txt" []
  = publish_file one_hit_world (JNum 43) "a.txt" "s3cret" default_server
      [(Search, search_request default_server sample_query);
       (NewVersion, newversion_request one_hit_world (JNum 42) "s3cret" default_server);
       (FetchDeposition, fetch_request "43" "s3cret" default_server);
       (UploadFile,
        upload_request one_hit_world "a.txt" (JStr "https://sandbox.zenodo.org/api/files/b43")
          "a.txt" "s3cret")].
Proof.
  exact (new_version_run one_hit_world "s3cret" sample_meta_data true "a.txt" []
           (JStr "Sample Dataset") sample_creators (JNum 42)
           (JStr "https://sandbox.zenodo.org/api/files/b42")
           (JStr "https://sandbox.zenodo.org/record/42")
           [(Search, search_request default_server sample_query)]
           (JNum 43) (JStr "https://sandbox.zenodo.org/api/files/b43")
           (JStr "https://sandbox.zenodo.org/record/43")
           [(Search, search_request default_server sample_query);
            (NewVersion, newversion_request one_hit_world (JNum 42) "s3cret" default_server);
            (FetchDeposition, fetch_request "43" "s3cret" default_server)]
           (Response 200 (Some JNull))
           eq_refl eq_refl eq_refl eq_refl eq_refl eq_refl eq_refl eq_refl).
Defined.

Lemma unreadable_file_leaves_draft_witness :
  upload_one locked_file_world "s3cret" sample_meta_data false "a.txt" []
  = (Raise (OSError "a.txt"),
     [(Search, search_request default_server sample_query);
      (CreateDeposition, create_request "s3cret" default_server)]).
Proof.
  exact (proj1 (unreadable_file_leaves_draft locked_file_world "s3cret" sample_meta_data
                  false "a.txt" [] (JStr "Sample Dataset") sample_creators JNull JNull JNull
                  [(Search, search_request default_server sample_query)]
                  (JNum 43, JStr "https://sandbox.zenodo.org/api/files/b43",
                   JStr "https://sandbox.zenodo.org/record/43")
                  [(Search, search_request default_server sample_query);
                   (CreateDeposition, create_request "s3cret" default_server)]
                  eq_refl eq_refl eq_refl eq_refl eq_refl)).
Defined.

Lemma query_has_no_slash_witness :
  search_query no_hit_world (JStr "a/b") (Some "o/p") (Some (Py.PyList [JStr "x/y"]))
  = Ok (map_char "/" " " ("metadata.title:" ++ dquote ++ "a/b" ++ dquote ++ " owners:o/p"
                          ++ " metadata.creators.name:" ++ dquote ++ "x/y" ++ dquote))
  /\ PyStr.mem "/"
       (map_char "/" " " ("metadata.title:" ++ dquote ++ "a/b" ++ dquote ++ " owners:o/p"
                          ++ " metadata.creators.name:" ++ dquote ++ "x/y" ++ dquote))
     = false.
Proof.
  split; [reflexivity|].
  exact (query_has_no_slash no_hit_world (JStr "a/b") (Some "o/p")
           (Some (Py.PyList [JStr "x/y"])) _ eq_refl).
Defined.

Lemma bad_creator_stops_search_witness :
  search_for_deposition no_hit_world (JStr "t") None
    (Some (creator_names [JObj [("name", JStr "A")]; JObj [("id", JNum 1)]; JNull]))
    default_server []
  = (Raise (KeyError "name"), []).
Proof.
  apply (bad_creator_stops_search no_hit_world (JStr "t") None default_server []
           [JObj [("name", JStr "A")]] (JObj [("id", JNum 1)]) [JNull] (KeyError "name"));
    [|reflexivity].
  constructor; [|constructor]. exists (JStr "A"). reflexivity.
Defined.

Lemma search_failures_witness :
  service refused_search_world [] (search_request default_server sample_query)
  = answer 400 (JObj [("status", JNum 400); ("message", JStr "Invalid query syntax.")])
  /\ snd (search_for_deposition refused_search_world (JStr "Sample Dataset") None
            (Some (creator_names sample_creators)) default_server [])
     = [(Search, search_request default_server sample_query)]
  /\ fst (search_for_deposition refused_search_world (JStr "Sample Dataset") None
            (Some (creator_names sample_creators)) default_server [])
     = Raise (KeyError "hits")
  /\ is_value_error (KeyError "hits") = true.
Proof.
  destruct (search_failures refused_search_world (JStr "Sample Dataset") None
              (Some (creator_names sample_creators)) default_server [] sample_query
              (Response 400 (Some (JObj [("status", JNum 400);
                                         ("message", JStr "Invalid query syntax.")])))
              eq_refl eq_refl)
    as (Htr & Herr & _).
  split; [reflexivity|]. split; [exact Htr|]. split; [reflexivity|].
  exact (Herr (KeyError "hits") eq_refl).
Defined.

Lemma create_new_deposition_returns_witness :
  create_new_deposition no_hit_world "s3cret" default_server
    [(Search, search_request default_server sample_query)]
  = (Ok (JNum 43, JStr "https://sandbox.zenodo.org/api/files/b43",
         JStr "https://sandbox.zenodo.org/record/43"),
     [(Search, search_request default_server sample_query);
      (CreateDeposition, create_request "s3cret" default_server)])
  /\ exists r,
       service no_hit_world [search_request default_server sample_query]
         (create_request "s3cret" default_server) = Reply r
       /\ ~ bad_status r.
Proof.
  split; [reflexivity|].
  destruct (create_new_deposition_returns no_hit_world "s3cret" default_server
              [(Search, search_request default_server sample_query)]
              (JNum 43) (JStr "https://sandbox.zenodo.org/api/files/b43")
              (JStr "https://sandbox.zenodo.org/record/43")
              [(Search, search_request default_server sample_query);
               (CreateDeposition, create_request "s3cret" default_server)] eq_refl)
    as (r & doc & links & html & _ & Hr & Hst & _).
  exists r. split; [exact Hr | exact Hst].
Defined.

(** X17: an html link in which "deposit" does not occur is returned as it
    is: the record URL of such a deposition is its html link. *)
Theorem record_url_without_deposit deposition id bucket record links html :
  triple_of deposition = Ok (id, bucket, record) ->
  Py.getitem deposition "links" = Ok links ->
  Py.getitem links "html" = Ok (JStr html) ->
  find "deposit" html = None ->
  record = JStr html.
Proof.
  intros Htriple Hlinks Hhtml Hfind.
  destruct (triple_of_inv _ _ _ _ Htriple) as (links' & html' & _ & Hlinks' & _ & Hhtml' & ->).
  rewrite Hlinks in Hlinks'. injection Hlinks' as <-.
  rewrite Hhtml in Hhtml'. injection Hhtml' as <-.
  rewrite (replace_find "d" "eposit" "record" html). cbv zeta. now rewrite Hfind.
Qed.

Lemma record_url_without_deposit_witness :
  find "deposit" "https://zenodo.org/uploads/9" = None
  /\ JStr (PyStr.replace "deposit" "record" "https://zenodo.org/uploads/9")
     = JStr "https://zenodo.org/uploads/9".
Proof.
  split; [reflexivity|].
  exact (record_url_without_deposit
           (deposition_doc (JNum 9) "https://zenodo.org/api/files/b9"
              "https://zenodo.org/uploads/9" EmptyString)
           (JNum 9) (JStr "https://zenodo.org/api/files/b9")
           (JStr (PyStr.replace "deposit" "record" "https://zenodo.org/uploads/9"))
           (JObj [("bucket", JStr "https://zenodo.org/api/files/b9");
                  ("html", JStr "https://zenodo.org/uploads/9");
                  ("latest_draft", JStr EmptyString)])
           "https://zenodo.org/uploads/9" eq_refl eq_refl eq_refl eq_refl).
Defined.
